(** * koa-backend: the order and payment service of [server.js]

    A shallow embedding of the five Express handlers of [server.js]
    (create-order, verify-payment, update-order-status, order/:orderId,
    orders/:userId) together with the runtime they call into: JavaScript
    values and coercions, Node's [crypto.createHmac('sha256', ...)], the
    Firestore [orders] collection and the Razorpay order API. *)

From Stdlib Require Import ZArith NArith List String Ascii Bool Lia.
From Stdlib Require Import DecimalString DecimalNat.
From Stdlib Require Import Floats.PrimFloat Floats.FloatOps Floats.SpecFloat.
From Stdlib Require Import Sorting.Sorted.
From stdpp Require Import gmap strings list fin_maps.

Set Warnings "-register-all".

Open Scope string_scope.
Open Scope list_scope.

(** ** Node's [crypto]: SHA-256 and HMAC (FIPS 180-4, RFC 2104)

    Words are 32-bit integers kept in [Z] with the wrap-around written out;
    byte strings are lists of integers below 256. *)
Module Crypto.

Local Open Scope Z_scope.
Local Open Scope list_scope.

Definition w32 (x : Z) : Z := x mod 2 ^ 32.
Definition add32 (x y : Z) : Z := w32 (x + y).
Definition rotr (n x : Z) : Z := Z.lor (Z.shiftr x n) (w32 (Z.shiftl x (32 - n))).
Definition not32 (x : Z) : Z := Z.lxor x (2 ^ 32 - 1).

Definition Ch (x y z : Z) : Z := Z.lxor (Z.land x y) (Z.land (not32 x) z).
Definition Maj (x y z : Z) : Z :=
  Z.lxor (Z.lxor (Z.land x y) (Z.land x z)) (Z.land y z).
Definition Sigma0 (x : Z) : Z := Z.lxor (Z.lxor (rotr 2 x) (rotr 13 x)) (rotr 22 x).
Definition Sigma1 (x : Z) : Z := Z.lxor (Z.lxor (rotr 6 x) (rotr 11 x)) (rotr 25 x).
Definition sigma0 (x : Z) : Z := Z.lxor (Z.lxor (rotr 7 x) (rotr 18 x)) (Z.shiftr x 3).
Definition sigma1 (x : Z) : Z := Z.lxor (Z.lxor (rotr 17 x) (rotr 19 x)) (Z.shiftr x 10).

(** The round constants are the first 32 bits of the fractional parts of the
    cube roots of the first 64 primes, the initial hash value those of the
    square roots of the first 8. *)
Definition is_prime (n : Z) : bool :=
  (1 <? n) && forallb (fun d => negb (n mod d =? 0) || (n <=? d))
                      (map Z.of_nat (seq 2 18)).

Definition primes64 : list Z :=
  Eval vm_compute in List.filter is_prime (map Z.of_nat (seq 2 310)).

Definition icbrt (n : Z) : Z :=
  fold_left (fun r b => let r' := r + 2 ^ Z.of_nat b in
                        if r' * r' * r' <=? n then r' else r)
            (rev (seq 0 40)) 0.

Definition K256 : list Z :=
  Eval vm_compute in map (fun p => w32 (icbrt (p * 2 ^ 96))) primes64.

Definition H256 : list Z :=
  Eval vm_compute in map (fun p => w32 (Z.sqrt (p * 2 ^ 64))) (firstn 8 primes64).

(** Padding: a 1 bit, zeros up to 56 mod 64 bytes, the bit length on 8 bytes. *)
Definition be_bytes (n : nat) (x : Z) : list Z :=
  map (fun i => Z.shiftr x (8 * Z.of_nat i) mod 256) (rev (seq 0 n)).

Definition pad (msg : list Z) : list Z :=
  let len := Z.of_nat (length msg) in
  let zeros := Z.to_nat ((55 - len) mod 64) in
  msg ++ 128 :: repeat 0 zeros ++ be_bytes 8 (8 * len).

Fixpoint be_words (bs : list Z) : list Z :=
  match bs with
  | b0 :: b1 :: b2 :: b3 :: rest =>
      (((b0 * 256 + b1) * 256 + b2) * 256 + b3) :: be_words rest
  | _ => []
  end.

Fixpoint chunks {A} (fuel n : nat) (l : list A) : list (list A) :=
  match fuel, l with
  | O, _ | _, [] => []
  | S fuel', _ => firstn n l :: chunks fuel' n (skipn n l)
  end.

(** The message schedule, most recent word first. *)
Fixpoint schedule (n : nat) (wrev : list Z) : list Z :=
  match n with
  | O => wrev
  | S n' =>
      let w := add32 (add32 (sigma1 (nth 1 wrev 0)) (nth 6 wrev 0))
                     (add32 (sigma0 (nth 14 wrev 0)) (nth 15 wrev 0)) in
      schedule n' (w :: wrev)
  end.

Record regs := Regs { ra : Z; rb : Z; rc : Z; rd : Z; re : Z; rf : Z; rg : Z; rh : Z }.

Definition round (s : regs) (kw : Z * Z) : regs :=
  let t1 := add32 (add32 (add32 (rh s) (Sigma1 (re s))) (Ch (re s) (rf s) (rg s)))
                  (add32 (fst kw) (snd kw)) in
  let t2 := add32 (Sigma0 (ra s)) (Maj (ra s) (rb s) (rc s)) in
  Regs (add32 t1 t2) (ra s) (rb s) (rc s) (add32 (rd s) t1) (re s) (rf s) (rg s).

Definition regs_of (h : list Z) : regs :=
  Regs (nth 0 h 0) (nth 1 h 0) (nth 2 h 0) (nth 3 h 0)
       (nth 4 h 0) (nth 5 h 0) (nth 6 h 0) (nth 7 h 0).

Definition compress (h : list Z) (block : list Z) : list Z :=
  let w := rev (schedule 48 (rev (be_words block))) in
  let s := fold_left round (combine K256 w) (regs_of h) in
  zip_with add32 h [ra s; rb s; rc s; rd s; re s; rf s; rg s; rh s].

Definition sha256 (msg : list Z) : list Z :=
  let p := pad msg in
  flat_map (be_bytes 4) (fold_left compress (chunks (length p) 64 p) H256).

Definition hmac_sha256 (key msg : list Z) : list Z :=
  let k := if (64 <? Z.of_nat (length key)) then sha256 key else key in
  let k := k ++ repeat 0 (64 - length k)%nat in
  sha256 (map (Z.lxor 92) k ++ sha256 (map (Z.lxor 54) k ++ msg)).

Definition bytes_of_string (s : string) : list Z :=
  map (fun c => Z.of_N (N_of_ascii c)) (list_ascii_of_string s).

Definition hex_digit (d : Z) : ascii :=
  ascii_of_N (Z.to_N (if d <? 10 then 48 + d else 87 + d)).

Definition hex (bs : list Z) : string :=
  string_of_list_ascii (flat_map (fun b => [hex_digit (b / 16); hex_digit (b mod 16)]) bs).

(** [crypto.createHmac('sha256', key).update(msg).digest('hex')] *)
Definition hmac_sha256_hex (key msg : string) : string :=
  hex (hmac_sha256 (bytes_of_string key) (bytes_of_string msg)).

End Crypto.

(** ** JavaScript values

    The values the handlers see: what [JSON.parse] puts in [req.body]
    ([VNull], booleans, IEEE doubles, strings, arrays, objects), [VUndefined]
    for a property that is absent, and the two Firestore objects the code
    handles: the [FieldValue.serverTimestamp()] sentinel it writes and the
    [Timestamp] it reads back. Strings are byte strings (UTF-8). An object is
    the list of its own properties in insertion order; the first binding of a
    key is the property. *)
Inductive Value : Type :=
| VUndefined
| VNull
| VBool (b : bool)
| VNum (x : float)
| VStr (s : string)
| VArr (elems : list Value)
| VObj (props : list (string * Value))
| VTimestamp (t : N)
| VServerTimestamp.

Abbreviation Obj := (list (string * Value)).

(** [o[k]] as an option, and as JavaScript reads it. *)
Fixpoint obj_get (k : string) (o : Obj) : option Value :=
  match o with
  | [] => None
  | (k', v) :: o' => if String.eqb k k' then Some v else obj_get k o'
  end.

Definition get (o : Obj) (k : string) : Value :=
  match obj_get k o with Some v => v | None => VUndefined end.

(** [o[k] = v]: an existing property keeps its place, a new one goes last. *)
Fixpoint obj_set (k : string) (v : Value) (o : Obj) : Obj :=
  match o with
  | [] => [(k, v)]
  | (k', v') :: o' =>
      if String.eqb k k' then (k, v) :: o' else (k', v') :: obj_set k v o'
  end.

(** The properties of an object, shadowed bindings dropped. *)
Fixpoint obj_entries (o : Obj) : Obj :=
  match o with
  | [] => []
  | (k, v) :: o' =>
      (k, v) :: List.filter (fun kv => negb (String.eqb (fst kv) k)) (obj_entries o')
  end.

Definition index_key (i : nat) : string := NilEmpty.string_of_uint (Nat.to_uint i).

(** The own enumerable properties [Object.assign] and object spread copy:
    those of an object, the indices of an array, the characters of a string;
    numbers, booleans, [null] and [undefined] have none. *)
Definition own_props (v : Value) : Obj :=
  match v with
  | VObj o => obj_entries o
  | VArr l => imap (fun i x => (index_key i, x)) l
  | VStr s => imap (fun i c => (index_key i, VStr (String c EmptyString)))
                   (list_ascii_of_string s)
  | _ => []
  end.

Definition Object_assign (target : Obj) (source : Value) : Obj :=
  fold_left (fun t kv => obj_set (fst kv) (snd kv) t) (own_props source) target.

(** [v.k] on a value that may not be an object. *)
Definition get_prop (v : Value) (k : string) : Value :=
  match v with VObj o => get o k | _ => VUndefined end.

(** ToBoolean: [!v] is [negb (truthy v)]. *)
Definition truthy (v : Value) : bool :=
  match v with
  | VUndefined | VNull => false
  | VBool b => b
  | VNum x => negb (PrimFloat.eqb x 0 || PrimFloat.is_nan x)
  | VStr s => negb (String.eqb s "")
  | VArr _ | VObj _ | VTimestamp _ | VServerTimestamp => true
  end.

Section ToString.

(** Number::toString of ECMAScript, the one part of the language runtime
    taken as a parameter. *)
Variable Number_toString : float -> string.

(** ToString, as the template literal and [+ "|" +] apply it. An array
    joins its elements with commas, [null] and [undefined] elements as
    empty strings. *)
Fixpoint js_to_string (v : Value) : string :=
  match v with
  | VUndefined => "undefined"
  | VNull => "null"
  | VBool true => "true"
  | VBool false => "false"
  | VNum x => Number_toString x
  | VStr s => s
  | VArr l =>
      String.concat ","
        (map (fun x => match x with
                       | VUndefined | VNull => ""
                       | _ => js_to_string x
                       end) l)
  | VObj _ | VTimestamp _ | VServerTimestamp => "[object Object]"
  end.

(** [a + b] when one operand is a string. *)
Definition js_concat (a b : Value) : Value :=
  VStr (js_to_string a +:+ js_to_string b).

End ToString.

(** ** The Firestore collection [orders]

    The part of the Firestore client and server the handlers rely on, after
    the documented behaviour of [CollectionReference.add],
    [DocumentReference.get], [DocumentReference.update] and
    [Query.where(...).orderBy(...).get]. A document is the object of its
    fields; the collection maps document ids to documents. *)
Module Firestore.

(** *** Values a write accepts

    [undefined] is refused anywhere in the data ([ignoreUndefinedProperties]
    is not set); the server-timestamp sentinel is accepted as the value of a
    field and replaced by the server's time of the write. *)
Fixpoint storable (v : Value) : bool :=
  match v with
  | VUndefined | VServerTimestamp => false
  | VArr l => forallb storable l
  | VObj o => forallb (fun kv => storable (snd kv)) o
  | VNull | VBool _ | VNum _ | VStr _ | VTimestamp _ => true
  end.

Definition valid_field_value (v : Value) : bool :=
  match v with VServerTimestamp => true | _ => storable v end.

Definition resolve (now : N) (v : Value) : Value :=
  match v with VServerTimestamp => VTimestamp now | _ => v end.

(** *** Document ids

    [doc(id)] wants a non-empty string; the server refuses ids that contain
    a slash, are [.] or [..], match [__.*__] or exceed 1500 bytes. An id with
    slashes would address a document outside the collection; here it is
    refused like the others. *)
Definition has_char (c : ascii) (s : string) : bool :=
  existsb (Ascii.eqb c) (list_ascii_of_string s).

Definition reserved_id (s : string) : bool :=
  (4 <=? String.length s)%nat && String.prefix "__" s
  && String.eqb (substring (String.length s - 2) 2 s) "__".

Definition valid_doc_id (s : string) : bool :=
  negb (String.eqb s "") && negb (has_char "/" s)
  && negb (String.eqb s ".") && negb (String.eqb s "..")
  && negb (reserved_id s) && (String.length s <=? 1500)%nat.

(** The id [add] draws: 20 characters of the client's alphabet. *)
Definition id_alphabet : list ascii :=
  list_ascii_of_string
    "ABCDEFGHIJKLMNOPQRSTUVWXYZabcdefghijklmnopqrstuvwxyz0123456789".

Fixpoint id_chars (n : nat) (seed : N) : string :=
  match n with
  | O => EmptyString
  | S n' => String (nth (N.to_nat (seed mod 62)) id_alphabet "A"%char)
                   (id_chars n' (seed / 62))
  end.

Definition autoId (seed : N) : string := id_chars 20 seed.

(** *** Field paths of [update]

    The keys of the object given to [update] are field paths: dots separate
    the names of nested fields. A path must not be empty, start or end with
    a dot, contain two dots in a row, or contain one of [* ~ / [ ]]; no path
    of an update may be a prefix of another. *)
Fixpoint split_on (sep : ascii) (s : string) : list string :=
  match s with
  | EmptyString => [EmptyString]
  | String c s' =>
      if Ascii.eqb c sep then EmptyString :: split_on sep s'
      else match split_on sep s' with
           | [] => [String c EmptyString]
           | seg :: rest => String c seg :: rest
           end
  end.

Definition field_path (k : string) : list string := split_on "." k.

Definition valid_field_path (k : string) : bool :=
  forallb (fun seg => negb (String.eqb seg "")) (field_path k)
  && forallb (fun c => negb (has_char c k))
             (list_ascii_of_string "*~/[]").

Fixpoint is_prefix (p q : list string) : bool :=
  match p, q with
  | [], _ => true
  | _ :: _, [] => false
  | a :: p', b :: q' => String.eqb a b && is_prefix p' q'
  end.

Fixpoint no_conflict (ps : list (list string)) : bool :=
  match ps with
  | [] => true
  | p :: rest =>
      forallb (fun q => negb (is_prefix p q) && negb (is_prefix q p)) rest
      && no_conflict rest
  end.

(** Writing a value at a path: the maps on the way are created, and a value
    on the way that is not a map is replaced by one. *)
Fixpoint set_path (p : list string) (v : Value) (o : Obj) : Obj :=
  match p with
  | [] => o
  | k :: [] => obj_set k v o
  | k :: p' =>
      let sub := match obj_get k o with Some (VObj m) => m | _ => [] end in
      obj_set k (VObj (set_path p' v sub)) o
  end.

Definition valid_add (data : Obj) : bool :=
  forallb (fun kv => valid_field_value (snd kv)) (obj_entries data).

Definition valid_update (data : Obj) : bool :=
  match obj_entries data with
  | [] => false
  | es => forallb (fun kv => valid_field_path (fst kv) && valid_field_value (snd kv)) es
          && no_conflict (map (fun kv => field_path (fst kv)) es)
  end.

Definition new_document (now : N) (data : Obj) : Obj :=
  map (fun kv => (fst kv, resolve now (snd kv))) (obj_entries data).

Definition apply_update (now : N) (data : Obj) (doc : Obj) : Obj :=
  fold_left (fun d kv => set_path (field_path (fst kv)) (resolve now (snd kv)) d)
            (obj_entries data) doc.

(** *** The order of values

    Values of different types compare by type: null, booleans, numbers,
    timestamps, strings, arrays, maps. Numbers compare by value with NaN
    below all and the two zeros equal; strings by bytes; arrays element by
    element; maps entry by entry in the order of their keys. *)
Definition type_rank (v : Value) : nat :=
  match v with
  | VNull => 0 | VBool _ => 1 | VNum _ => 2 | VTimestamp _ => 3 | VStr _ => 4
  | VArr _ => 5 | VObj _ => 6 | VUndefined => 7 | VServerTimestamp => 8
  end.

(** A double that is not NaN as the integer [x * 2^1074], the infinities
    beyond every finite one. *)
Definition num_key (x : float) : Z :=
  match Prim2SF x with
  | S754_nan | S754_zero _ => 0
  | S754_infinity s => if s then - 2 ^ 2100 else 2 ^ 2100
  | S754_finite s m e => (if s then -1 else 1) * (Z.pos m * 2 ^ (e + 1074))
  end%Z.

Definition compare_num (x y : float) : comparison :=
  match PrimFloat.is_nan x, PrimFloat.is_nan y with
  | true, true => Eq
  | true, false => Lt
  | false, true => Gt
  | false, false => Z.compare (num_key x) (num_key y)
  end.

Fixpoint depth (v : Value) : nat :=
  match v with
  | VArr l => S (list_max (map depth l))
  | VObj o => S (list_max (map (fun kv => depth (snd kv)) o))
  | _ => 0
  end.

Fixpoint lex {A} (cmp : A -> A -> comparison) (l1 l2 : list A) : comparison :=
  match l1, l2 with
  | [], [] => Eq
  | [], _ :: _ => Lt
  | _ :: _, [] => Gt
  | x :: l1', y :: l2' =>
      match cmp x y with Eq => lex cmp l1' l2' | c => c end
  end.

Fixpoint insert_entry (e : string * Value) (l : Obj) : Obj :=
  match l with
  | [] => [e]
  | e' :: l' =>
      match String.compare (fst e) (fst e') with
      | Gt => e' :: insert_entry e l'
      | _ => e :: l
      end
  end.

Definition sort_entries (o : Obj) : Obj := fold_right insert_entry [] (obj_entries o).

Definition compare_entry (cmp : Value -> Value -> comparison)
    (e1 e2 : string * Value) : comparison :=
  match String.compare (fst e1) (fst e2) with
  | Eq => cmp (snd e1) (snd e2)
  | c => c
  end.

Fixpoint compare_fuel (n : nat) (a b : Value) : comparison :=
  match a, b with
  | VBool x, VBool y => Bool.compare x y
  | VNum x, VNum y => compare_num x y
  | VTimestamp s, VTimestamp t => N.compare s t
  | VStr s, VStr t => String.compare s t
  | VArr l1, VArr l2 =>
      match n with
      | O => Eq
      | S n' => lex (compare_fuel n') l1 l2
      end
  | VObj o1, VObj o2 =>
      match n with
      | O => Eq
      | S n' => lex (compare_entry (compare_fuel n')) (sort_entries o1) (sort_entries o2)
      end
  | _, _ => Nat.compare (type_rank a) (type_rank b)
  end.

Definition compare (a b : Value) : comparison :=
  compare_fuel (Nat.max (depth a) (depth b)) a b.

(** *** The query [where(field, '==', s).orderBy(key, 'desc')]

    The filter keeps the documents whose field is the string [s]; ordering
    by a field leaves out the documents that lack it; documents with equal
    keys come in the order of their ids, descending as well. *)
Definition field_is (field s : string) (d : Obj) : bool :=
  match obj_get field d with
  | Some (VStr s') => String.eqb s' s
  | _ => false
  end.

Definition has_field (field : string) (d : Obj) : bool :=
  match obj_get field d with Some _ => true | None => false end.

Definition compare_docs (key : string) (a b : string * Obj) : comparison :=
  match compare (get (snd a) key) (get (snd b) key) with
  | Eq => String.compare (fst a) (fst b)
  | c => c
  end.

Definition before_desc (key : string) (a b : string * Obj) : bool :=
  match compare_docs key a b with Lt => false | _ => true end.

Fixpoint insert_desc (key : string) (x : string * Obj) (l : list (string * Obj))
    : list (string * Obj) :=
  match l with
  | [] => [x]
  | y :: l' => if before_desc key x y then x :: l else y :: insert_desc key x l'
  end.

Definition sort_desc (key : string) (l : list (string * Obj)) : list (string * Obj) :=
  fold_right (insert_desc key) [] l.

Definition query_eq_desc (field s key : string) (coll : gmap string Obj)
    : list (string * Obj) :=
  sort_desc key
    (List.filter (fun kv => field_is field s (snd kv) && has_field key (snd kv))
            (map_to_list coll)).

End Firestore.

(** ** The world of a request

    What lives outside the process: the [orders] collection with the server's
    clock, the orders that exist at the payment gateway, and the record of
    the calls the process made to its collaborators, oldest first. Server
    time is a counter that stamps a write and has advanced after it: the
    store assigns it, and it only grows. *)
Inductive Event : Type :=
| GatewayOrderCreate (options : Obj)
| StoreAdd (data : Obj)
| StoreUpdate (id : string) (data : Obj)
| StoreGet (id : string)
| StoreQuery (userId : string)
| ConsoleError (label : string) (error : Value).

Record World : Type := mkWorld {
  orders : gmap string Obj;
  clock : N;
  gateway_orders : list Obj;
  trace : list Event
}.

Definition initial_world : World := mkWorld ∅ 0 [] [].

(** The three ways the world changes: a call is recorded, an order comes to
    exist at the gateway, a document is written at the server's time, after
    which the clock has advanced. *)
Definition log (evs : list Event) (w : World) : World :=
  mkWorld (orders w) (clock w) (gateway_orders w) (trace w ++ evs).

Definition gateway_creates (order : Obj) (w : World) : World :=
  mkWorld (orders w) (clock w) (gateway_orders w ++ [order]) (trace w).

Definition store_writes (id : string) (doc : Obj) (w : World) : World :=
  mkWorld (<[id := doc]> (orders w)) (clock w + 1) (gateway_orders w) (trace w).

(** What a request finds around it: the process environment, the language
    runtime's number printing, the answer of the Razorpay API to an order
    request (the order it created, or the error it rejects with), whether
    the store can be reached, and the seed of the id [add] draws. *)
Record Env : Type := mkEnv {
  RAZORPAY_KEY_SECRET : option string;
  Number_toString : float -> string;
  razorpay_api : Obj -> Value + Obj;
  db_fault : option string;
  id_seed : N
}.

Inductive Result (A : Type) : Type :=
| Ok (a : A)
| Throw (error : Value).
Arguments Ok {A} a.
Arguments Throw {A} error.

(** Handlers run in a monad of state over the world with exceptions. *)
Definition M (A : Type) : Type := Env -> World -> World * Result A.

#[export] Instance M_ret : MRet M := fun A a _ w => (w, Ok a).
#[export] Instance M_bind : MBind M := fun A B f m env w =>
  match m env w with
  | (w', Ok a) => f a env w'
  | (w', Throw e) => (w', Throw e)
  end.

Definition throw {A} (e : Value) : M A := fun _ w => (w, Throw e).
Definition ask : M Env := fun env w => (w, Ok env).
Definition read_world : M World := fun _ w => (w, Ok w).
Definition emit (ev : Event) : M unit := fun _ w => (log [ev] w, Ok tt).

(** [try { body } catch (error) { handler }] *)
Definition try_catch {A} (body : M A) (handler : Value -> M A) : M A :=
  fun env w =>
    match body env w with
    | (w', Ok a) => (w', Ok a)
    | (w', Throw e) => handler e env w'
    end.

(** [new Error(message)] *)
Definition js_error (message : string) : Value := VObj [("message", VStr message)].

(** The errors of the Firestore client and server the handlers can meet
    (their messages shortened). *)
Definition invalid_document_path : Value :=
  js_error "Value for argument documentPath is not a valid resource path.".
Definition invalid_document_data : Value :=
  js_error "Cannot use undefined as a Firestore value.".
Definition invalid_update_data : Value :=
  js_error "Update data is not a valid Firestore document.".
Definition already_exists : Value :=
  js_error "6 ALREADY_EXISTS: Document already exists".
Definition not_found : Value :=
  js_error "5 NOT_FOUND: No document to update".

Definition console_error (label : string) (error : Value) : M unit :=
  emit (ConsoleError label error).

(** [razorpay.orders.create(options)] *)
Definition razorpay_orders_create (options : Obj) : M Obj :=
  env ← ask;
  emit (GatewayOrderCreate options);;
  match razorpay_api env options with
  | inr order =>
      (fun _ w => (gateway_creates order w, Ok order)) : M Obj
  | inl error => throw error
  end.

(** [db.collection('orders').doc(id)] *)
Definition db_doc (id : Value) : M string :=
  match id with
  | VStr s => if Firestore.valid_doc_id s then mret s
              else throw invalid_document_path
  | _ => throw invalid_document_path
  end.

(** The round trip to the store, which fails when the store cannot be
    reached. *)
Definition db_call (ev : Event) : M unit :=
  env ← ask;
  emit ev;;
  match db_fault env with
  | Some message => throw (js_error message)
  | None => mret tt
  end.

(** [db.collection('orders').add(data)]: the data is checked, the id drawn,
    the document created at the server's time; the id of the new document
    is returned. *)
Definition db_add (data : Obj) : M string :=
  env ← ask;
  (if Firestore.valid_add data then mret tt
   else throw invalid_document_data);;
  let id := Firestore.autoId (id_seed env) in
  db_call (StoreAdd data);;
  w ← read_world;
  match orders w !! id with
  | Some _ => throw already_exists
  | None =>
      (fun _ w => (store_writes id (Firestore.new_document (clock w) data) w,
                   Ok id)) : M string
  end.

(** [db.collection('orders').doc(id).update(data)] on a document reference:
    the data is checked, and the fields are merged into the document, which
    must exist. *)
Definition db_update (id : string) (data : Obj) : M unit :=
  (if Firestore.valid_update data then mret tt
   else throw invalid_update_data);;
  db_call (StoreUpdate id data);;
  w ← read_world;
  match orders w !! id with
  | None => throw not_found
  | Some doc =>
      (fun _ w => (store_writes id (Firestore.apply_update (clock w) data doc) w,
                   Ok tt)) : M unit
  end.

(** [db.collection('orders').doc(id).get()]: the snapshot, with the data of
    the document when it exists. *)
Definition db_get (id : string) : M (option Obj) :=
  db_call (StoreGet id);;
  w ← read_world;
  mret (orders w !! id).

(** [db.collection('orders').where('userId', '==', userId)
      .orderBy('createdAt', 'desc').get()] *)
Definition db_orders_of_user (userId : string) : M (list (string * Obj)) :=
  db_call (StoreQuery userId);;
  w ← read_world;
  mret (Firestore.query_eq_desc "userId" userId "createdAt" (orders w)).

(** ** The handlers of [server.js] *)

(** A request: the parsed JSON body and the route parameter ([:orderId] or
    [:userId], a string). The response: the status code and the object
    given to [res.json]. *)
Record Request : Type := mkRequest {
  body : Obj;
  param : string
}.

Record Response : Type := mkResponse {
  status : N;
  json : Obj
}.

Definition res_json (o : Obj) : Response := mkResponse 200 o.
Definition res_status_json (code : N) (o : Obj) : Response := mkResponse code o.

(** [process.env.NAME || 'literal'] *)
Definition env_or (var : option string) (literal : string) : string :=
  match var with
  | Some s => if truthy (VStr s) then s else literal
  | None => literal
  end.

(** [expected === candidate] for a string [expected] *)
Definition strict_eq_string (expected : string) (candidate : Value) : bool :=
  match candidate with
  | VStr s => String.eqb expected s
  | _ => false
  end.

(** The signature check of the verify-payment handler, lines 122-129, for
    the key given to [createHmac]: the HMAC-SHA256 hex digest of
    [razorpay_order_id + "|" + razorpay_payment_id], compared with [===]. *)
Definition verify_signature (toString : float -> string)
    (razorpay_order_id razorpay_payment_id : Value) (secret : string)
    (razorpay_signature : Value) : bool :=
  let body := js_concat toString (js_concat toString razorpay_order_id (VStr "|"))
                        razorpay_payment_id in
  let expectedSignature :=
    Crypto.hmac_sha256_hex secret (js_to_string toString body) in
  strict_eq_string expectedSignature razorpay_signature.

(** The two objects create-order builds: the options of the gateway order
    and the data of the local document. *)
Definition razorpayOrderOptions (toString : float -> string)
    (userId userEmail amount : Value) : Obj :=
  [("amount", amount);
   ("currency", VStr "INR");
   ("receipt", VStr (js_to_string toString userId));
   ("notes", VObj [("userId", userId); ("userEmail", userEmail)])].

Definition firebaseOrderData
    (userId userEmail items totalAmount userDetails : Value) (razorpayOrder : Obj)
    : Obj :=
  [("userId", userId);
   ("userEmail", userEmail);
   ("items", items);
   ("totalAmount", totalAmount);
   ("userDetails", userDetails);
   ("paymentMethod", VStr "razorpay");
   ("razorpayOrderId", get razorpayOrder "id");
   ("razorpayPaymentId", VNull);
   ("razorpaySignature", VNull);
   ("status", VStr "pending");
   ("createdAt", VServerTimestamp);
   ("updatedAt", VServerTimestamp)].

(** [POST /api/create-order] *)
Definition create_order (req : Request) : M Response :=
  try_catch
    (env ← ask;
     let userId := get (body req) "userId" in
     let userEmail := get (body req) "userEmail" in
     let items := get (body req) "items" in
     let totalAmount := get (body req) "totalAmount" in
     let userDetails := get (body req) "userDetails" in
     let amount := get (body req) "amount" in
     if negb (truthy userId) || negb (truthy userEmail) || negb (truthy items)
        || negb (truthy totalAmount) || negb (truthy userDetails)
        || negb (truthy amount)
     then
       mret (res_status_json 400
               [("success", VBool false);
                ("error", VStr "Missing required fields")])
     else
       razorpayOrder ←
         razorpay_orders_create
           (razorpayOrderOptions (Number_toString env) userId userEmail amount);
       firebaseOrderRef ←
         db_add (firebaseOrderData userId userEmail items totalAmount userDetails
                                   razorpayOrder);
       mret (res_json
               [("success", VBool true);
                ("razorpayOrderId", get razorpayOrder "id");
                ("firebaseOrderId", VStr firebaseOrderRef);
                ("amount", get razorpayOrder "amount");
                ("currency", get razorpayOrder "currency")]))
    (fun error =>
       console_error "Create order error:" error;;
       mret (res_status_json 500
               [("success", VBool false);
                ("error", get_prop error "message")])).

(** [POST /api/verify-payment] *)
Definition verify_payment (req : Request) : M Response :=
  try_catch
    (env ← ask;
     let razorpay_order_id := get (body req) "razorpay_order_id" in
     let razorpay_payment_id := get (body req) "razorpay_payment_id" in
     let razorpay_signature := get (body req) "razorpay_signature" in
     let firebaseOrderId := get (body req) "firebaseOrderId" in
     let isAuthentic :=
       verify_signature (Number_toString env) razorpay_order_id razorpay_payment_id
         (env_or (RAZORPAY_KEY_SECRET env) "your_razorpay_secret_here")
         razorpay_signature in
     if isAuthentic then
       ref ← db_doc firebaseOrderId;
       db_update ref
         [("razorpayPaymentId", razorpay_payment_id);
          ("razorpaySignature", razorpay_signature);
          ("status", VStr "paid");
          ("paidAt", VServerTimestamp);
          ("updatedAt", VServerTimestamp)];;
       mret (res_json
               [("success", VBool true);
                ("message", VStr "Payment verified successfully")])
     else
       ref ← db_doc firebaseOrderId;
       db_update ref
         [("status", VStr "failed");
          ("updatedAt", VServerTimestamp)];;
       mret (res_status_json 400
               [("success", VBool false);
                ("message", VStr "Payment verification failed")]))
    (fun error =>
       console_error "Payment verification error:" error;;
       mret (res_status_json 500
               [("success", VBool false);
                ("error", get_prop error "message")])).

(** The object update-order-status writes: [status] and a fresh [updatedAt],
    then the payment details assigned over them when there are any. *)
Definition updateData (status paymentDetails : Value) : Obj :=
  let updateData :=
    [("status", status);
     ("updatedAt", VServerTimestamp)] in
  if truthy paymentDetails then Object_assign updateData paymentDetails
  else updateData.

(** [POST /api/update-order-status] *)
Definition update_order_status (req : Request) : M Response :=
  try_catch
    (let firebaseOrderId := get (body req) "firebaseOrderId" in
     let status := get (body req) "status" in
     let paymentDetails := get (body req) "paymentDetails" in
     let updateData := updateData status paymentDetails in
     ref ← db_doc firebaseOrderId;
     db_update ref updateData;;
     mret (res_json
             [("success", VBool true);
              ("message", VStr "Order status updated successfully")]))
    (fun error =>
       console_error "Update order status error:" error;;
       mret (res_status_json 500
               [("success", VBool false);
                ("error", get_prop error "message")])).

(** [{ id: doc.id, ...doc.data() }] *)
Definition with_id (id : string) (data : Obj) : Value :=
  VObj (Object_assign [("id", VStr id)] (VObj data)).

(** [GET /api/order/:orderId] *)
Definition get_order (req : Request) : M Response :=
  try_catch
    (let orderId := param req in
     ref ← db_doc (VStr orderId);
     orderDoc ← db_get ref;
     match orderDoc with
     | None =>
         mret (res_status_json 404
                 [("success", VBool false);
                  ("error", VStr "Order not found")])
     | Some data =>
         mret (res_json
                 [("success", VBool true);
                  ("order", with_id ref data)])
     end)
    (fun error =>
       console_error "Get order error:" error;;
       mret (res_status_json 500
               [("success", VBool false);
                ("error", get_prop error "message")])).

(** [GET /api/orders/:userId] *)
Definition get_orders (req : Request) : M Response :=
  try_catch
    (let userId := param req in
     ordersSnapshot ← db_orders_of_user userId;
     let orders :=
       fold_left (fun orders doc => orders ++ [with_id (fst doc) (snd doc)])
                 ordersSnapshot [] in
     mret (res_json
             [("success", VBool true);
              ("orders", VArr orders)]))
    (fun error =>
       console_error "Get user orders error:" error;;
       mret (res_status_json 500
               [("success", VBool false);
                ("error", get_prop error "message")])).

(** The answer of create-order to a request that fails its check. *)
Definition missing_required_fields : Response :=
  res_status_json 400
    [("success", VBool false); ("error", VStr "Missing required fields")].

(** The answer of a handler's [catch], and what the [catch] does. *)
Definition server_error (error : Value) : Response :=
  res_status_json 500
    [("success", VBool false); ("error", get_prop error "message")].

Definition caught (label : string) (error : Value) (w : World)
    : World * Result Response :=
  (log [ConsoleError label error] w, Ok (server_error error)).

(** The answer of create-order to a request it served. *)
Definition order_created (razorpayOrder : Obj) (firebaseOrderId : string)
    : Response :=
  res_json
    [("success", VBool true);
     ("razorpayOrderId", get razorpayOrder "id");
     ("firebaseOrderId", VStr firebaseOrderId);
     ("amount", get razorpayOrder "amount");
     ("currency", get razorpayOrder "currency")].

(** The two updates of verify-payment and the answer of
    update-order-status. *)
Definition paid_update (razorpay_payment_id razorpay_signature : Value) : Obj :=
  [("razorpayPaymentId", razorpay_payment_id);
   ("razorpaySignature", razorpay_signature);
   ("status", VStr "paid");
   ("paidAt", VServerTimestamp);
   ("updatedAt", VServerTimestamp)].

Definition failed_update : Obj :=
  [("status", VStr "failed");
   ("updatedAt", VServerTimestamp)].

Definition status_updated : Response :=
  res_json
    [("success", VBool true);
     ("message", VStr "Order status updated successfully")].

(** The answers of get-order. *)
Definition order_not_found : Response :=
  res_status_json 404
    [("success", VBool false); ("error", VStr "Order not found")].

Definition order_found (id : string) (data : Obj) : Response :=
  res_json [("success", VBool true); ("order", with_id id data)].

(** What [doc(id).update(data)] followed by the answer [ok] comes to, inside
    a handler whose [catch] logs under [label]. *)
Definition update_outcome (label : string) (id : Value) (data : Obj)
    (ok : Response) (env : Env) (w : World) : World * Result Response :=
  match id with
  | VStr ref =>
      if Firestore.valid_doc_id ref then
        if Firestore.valid_update data then
          let w1 := log [StoreUpdate ref data] w in
          match db_fault env with
          | Some message => caught label (js_error message) w1
          | None =>
              match orders w !! ref with
              | None => caught label not_found w1
              | Some doc =>
                  (store_writes ref (Firestore.apply_update (clock w) data doc) w1,
                   Ok ok)
              end
          end
        else caught label invalid_update_data w
      else caught label invalid_document_path w
  | _ => caught label invalid_document_path w
  end.

(** The answers of verify-payment. *)
Definition payment_verified : Response :=
  res_json
    [("success", VBool true); ("message", VStr "Payment verified successfully")].

Definition payment_verification_failed : Response :=
  res_status_json 400
    [("success", VBool false); ("message", VStr "Payment verification failed")].

(** ** Runs of the service *)
Inductive Call : Type :=
| CreateOrder
| VerifyPayment
| UpdateOrderStatus
| GetOrder
| GetOrders.

Definition handle (c : Call) : Request -> M Response :=
  match c with
  | CreateOrder => create_order
  | VerifyPayment => verify_payment
  | UpdateOrderStatus => update_order_status
  | GetOrder => get_order
  | GetOrders => get_orders
  end.

Definition world_after (c : Call) (req : Request) (env : Env) (w : World) : World :=
  fst (handle c req env w).

(** The worlds the service can bring about, from the empty one. *)
Inductive reachable : World -> Prop :=
| reach_init : reachable initial_world
| reach_step w c req env :
    reachable w -> reachable (world_after c req env w).

(** ** Properties of orders the specification names *)



(** The values [JSON.parse] yields. *)
Fixpoint json_value (v : Value) : bool :=
  match v with
  | VUndefined | VTimestamp _ | VServerTimestamp => false
  | VArr l => forallb json_value l
  | VObj o => forallb (fun kv => json_value (snd kv)) o
  | VNull | VBool _ | VNum _ | VStr _ => true
  end.

(** Calls by their kind. *)
Definition is_gateway_call (ev : Event) : bool :=
  match ev with GatewayOrderCreate _ => true | _ => false end.


(** The property [Object.assign] copies from the payment details under a
    key, if any. *)
Definition extra_field (paymentDetails : Value) (k : string) : option Value :=
  if truthy paymentDetails then obj_get k (own_props paymentDetails) else None.

(** A call to the store, of any kind. *)
Definition is_store_call (ev : Event) : bool :=
  match ev with
  | StoreAdd _ | StoreUpdate _ _ | StoreGet _ | StoreQuery _ => true
  | GatewayOrderCreate _ | ConsoleError _ _ => false
  end.

(** The log a [catch] writes. *)
Definition is_error_log (ev : Event) : bool :=
  match ev with ConsoleError _ _ => true | _ => false end.

(** The digits of a hex digest. *)
Definition hex_digits : list ascii := list_ascii_of_string "0123456789abcdef".


(** The fields create-order writes. *)
Definition creation_fields : list string :=
  ["userId"; "userEmail"; "items"; "totalAmount"; "userDetails"; "paymentMethod";
   "razorpayOrderId"; "razorpayPaymentId"; "razorpaySignature"; "status";
   "createdAt"; "updatedAt"].

(** The inputs create-order stores as they come. *)
Definition stored_inputs : list string :=
  ["userId"; "userEmail"; "items"; "totalAmount"; "userDetails"].

(** The six inputs create-order requires. *)
Definition required_fields : list string :=
  ["userId"; "userEmail"; "items"; "totalAmount"; "userDetails"; "amount"].

(** A list of documents in descending order of [createdAt], with and
    without ties. *)
Definition descending (l : list (string * Obj)) : Prop :=
  Sorted (fun a b => Firestore.compare (get (snd a) "createdAt")
                                       (get (snd b) "createdAt") <> Lt) l.

Definition strictly_descending (l : list (string * Obj)) : Prop :=
  Sorted (fun a b => Firestore.compare (get (snd a) "createdAt")
                                       (get (snd b) "createdAt") = Gt) l.


(** Every stored order has its [createdAt]. *)
Definition all_have_createdAt (w : World) : Prop :=
  forall id d, orders w !! id = Some d -> Firestore.has_field "createdAt" d = true.



(** ** Concrete runs

    A gateway that accepts every order and echoes amount and currency, an
    environment without a configured secret, and the requests of the runs
    used below. No run prints a number, so a constant stands in for
    Number::toString. *)
Module Run.

Definition gateway (options : Obj) : Value + Obj :=
  inr [("id", VStr "order_abc");
       ("amount", get options "amount");
       ("currency", get options "currency")].

Definition env (seed : N) : Env :=
  mkEnv None (fun _ => "NaN") gateway None seed.

Definition unreachable_store (seed : N) : Env :=
  mkEnv None (fun _ => "NaN") gateway (Some "14 UNAVAILABLE") seed.


Definition order_of (userId : string) (items : Value) : Request :=
  mkRequest
    [("userId", VStr userId);
     ("userEmail", VStr "a@b.com");
     ("items", items);
     ("totalAmount", VNum 100);
     ("userDetails", VObj [("name", VStr "A")]);
     ("amount", VNum 10000)]
    "".

Definition one_item : Value := VArr [VObj [("sku", VStr "X"); ("qty", VNum 1)]].

Definition id0 : string := Eval vm_compute in Firestore.autoId 0.
Definition id1 : string := Eval vm_compute in Firestore.autoId 1.

Definition forged : string :=
  Eval vm_compute in
    Crypto.hmac_sha256_hex "your_razorpay_secret_here" "order_abc|pay_xyz".


Definition status_update (id : string) (status : string) (paymentDetails : Value)
    : Request :=
  mkRequest
    [("firebaseOrderId", VStr id);
     ("status", VStr status);
     ("paymentDetails", paymentDetails)]
    "".

Definition read (p : string) : Request := mkRequest [] p.

(** One order created, then paid. *)
Definition created : World :=
  world_after CreateOrder (order_of "u1" one_item) (env 0) initial_world.




(** An order updated with payment details that carry [status] and
    [updatedAt] of their own. *)
Definition overridden : World :=
  world_after UpdateOrderStatus
    (status_update id0 "paid"
       (VObj [("status", VStr "refunded"); ("updatedAt", VStr "never")]))
    (env 0) created.



(** Two orders of one user, both with [createdAt] overwritten through
    update-order-status. *)
Definition two_orders : World :=
  world_after CreateOrder (order_of "u1" one_item) (env 1) created.

Definition same_createdAt : World :=
  world_after UpdateOrderStatus
    (status_update id1 "pending" (VObj [("createdAt", VStr "x")])) (env 0)
    (world_after UpdateOrderStatus
       (status_update id0 "pending" (VObj [("createdAt", VStr "x")])) (env 0)
       two_orders).

(** An order given a field named [id] through update-order-status. *)
Definition with_id_field : World :=
  world_after UpdateOrderStatus
    (status_update id0 "pending" (VObj [("id", VStr "other")])) (env 0) created.

End Run.

(** * Theorems *)

(** ** The runtime on examples *)

(** Test vectors of SHA-256 and HMAC-SHA256. *)
Example sha256_abc :
  Crypto.hex (Crypto.sha256 (Crypto.bytes_of_string "abc"))
  = "ba7816bf8f01cfea414140de5dae2223b00361a396177a9cb410ff61f20015ad".
Proof. vm_compute. reflexivity. Qed.

Example hmac_fox :
  Crypto.hmac_sha256_hex "key" "The quick brown fox jumps over the lazy dog"
  = "f7bc83f430538424b13298e6aa6fb143ef4d59a14946175997479dbc2d1a3cd8".
Proof. vm_compute. reflexivity. Qed.

Example hmac_long_key :
  Crypto.hmac_sha256_hex (string_of_list_ascii (repeat "k"%char 70))
                         (string_of_list_ascii (repeat "x"%char 130))
  = "65f3828fb4164fc0fce3be71ca4cf0a8915b8e484444e7765ab030abe4c28ac0".
Proof. vm_compute. reflexivity. Qed.

(** The forged signature of the runs. *)
Example forged_signature :
  Run.forged = "87886254bfdad0e5f79e0c98ff2148b2cae3dc0622c0fc4c3a0fb7a65e1e480b".
Proof. reflexivity. Qed.

(** Coercions: [!0], [!-0], [!NaN], [!""] hold, [![]] and [!{}] do not; an
    array prints its elements joined by commas. *)
Example falsy_numbers :
  map truthy [VNum 0; VNum (-0); VNum PrimFloat.nan; VNum 10000; VStr ""; VStr "0"]
  = [false; false; false; true; false; true].
Proof. reflexivity. Qed.

Example array_to_string :
  js_to_string (fun _ => "1") (VArr [VStr "a"; VNull; VArr [VStr "b"; VNum 1]; VObj []])
  = "a,,b,1,[object Object]".
Proof. reflexivity. Qed.

Example assign_string :
  Object_assign [("status", VStr "paid")] (VStr "ab")
  = [("status", VStr "paid"); ("0", VStr "a"); ("1", VStr "b")].
Proof. reflexivity. Qed.

(** Document ids and field paths. *)
Example doc_ids :
  map Firestore.valid_doc_id [Run.id0; ""; "a/b"; ".."; "__x__"; "order 1"]
  = [true; false; false; false; false; true].
Proof. reflexivity. Qed.

Example field_paths :
  map Firestore.valid_field_path ["status"; "userDetails.name"; ""; "a..b"; ".a"; "a[0]"]
  = [true; true; false; false; false; false].
Proof. reflexivity. Qed.

Example nested_update :
  Firestore.apply_update 7
    [("userDetails.name", VStr "B"); ("updatedAt", VServerTimestamp)]
    [("userDetails", VObj [("name", VStr "A"); ("city", VStr "C")]);
     ("updatedAt", VTimestamp 3)]
  = [("userDetails", VObj [("name", VStr "B"); ("city", VStr "C")]);
     ("updatedAt", VTimestamp 7)].
Proof. reflexivity. Qed.

Example conflicting_update :
  Firestore.valid_update [("updatedAt", VServerTimestamp); ("updatedAt.by", VStr "me")]
  = false.
Proof. reflexivity. Qed.

(** The order of values: by type first, numbers by value. *)
Example value_order :
  [Firestore.compare VNull (VBool false);
   Firestore.compare (VNum 2) (VNum 1.5);
   Firestore.compare (VNum (-0)) (VNum 0);
   Firestore.compare (VNum PrimFloat.nan) (VNum PrimFloat.neg_infinity);
   Firestore.compare (VNum PrimFloat.infinity) (VTimestamp 0);
   Firestore.compare (VTimestamp 5) (VStr "");
   Firestore.compare (VArr [VNum 1; VNum 2]) (VArr [VNum 1]);
   Firestore.compare (VObj [("b", VNull); ("a", VNum 1)]) (VObj [("a", VNum 1); ("c", VNull)])]
  = [Lt; Gt; Eq; Lt; Lt; Lt; Gt; Lt].
Proof. vm_compute. reflexivity. Qed.


(** ** Objects *)
Section ObjectFacts.

Implicit Types (k : string) (v : Value) (o : Obj).

Lemma obj_get_set k k' v o :
  obj_get k (obj_set k' v o) = if String.eqb k k' then Some v else obj_get k o.
Proof.
  induction o as [|[k0 v0] o IH]; simpl.
  - destruct (String.eqb_spec k k'); reflexivity.
  - destruct (String.eqb_spec k' k0) as [->|Hne]; simpl.
    + destruct (String.eqb_spec k k0); reflexivity.
    + rewrite IH. destruct (String.eqb_spec k k0) as [->|]; [|reflexivity].
      destruct (String.eqb_spec k0 k'); congruence.
Qed.


Lemma get_set_same k v o : get (obj_set k v o) k = v.
Proof. unfold get. rewrite obj_get_set, String.eqb_refl. reflexivity. Qed.

Lemma get_set_other k k' v o : k <> k' -> get (obj_set k' v o) k = get o k.
Proof.
  intros Hne. unfold get. rewrite obj_get_set.
  destruct (String.eqb_spec k k'); congruence.
Qed.

Lemma obj_get_filter_other k k' o :
  k <> k' ->
  obj_get k (List.filter (fun kv => negb (String.eqb (fst kv) k')) o) = obj_get k o.
Proof.
  intros Hne. induction o as [|[k0 v0] o IH]; simpl; [reflexivity|].
  destruct (String.eqb_spec k0 k') as [->|]; simpl.
  - destruct (String.eqb_spec k k'); congruence.
  - rewrite IH. reflexivity.
Qed.

Lemma obj_get_entries k o : obj_get k (obj_entries o) = obj_get k o.
Proof.
  induction o as [|[k0 v0] o IH]; simpl; [reflexivity|].
  destruct (String.eqb_spec k k0) as [->|Hne]; [reflexivity|].
  rewrite obj_get_filter_other by assumption. exact IH.
Qed.

Lemma obj_get_filter_same k o :
  obj_get k (List.filter (fun kv => negb (String.eqb (fst kv) k)) o) = None.
Proof.
  induction o as [|[k0 v0] o IH]; simpl; [reflexivity|].
  destruct (String.eqb_spec k0 k) as [->|Hne]; simpl; [exact IH|].
  destruct (String.eqb_spec k k0); [congruence|exact IH].
Qed.

(** Assigning a list of properties one after the other: a key takes the
    value of its last occurrence. *)
Lemma obj_get_fold_set k (es : Obj) o :
  obj_get k (fold_left (fun t kv => obj_set (fst kv) (snd kv) t) es o)
  = match obj_get k (rev es) with Some v => Some v | None => obj_get k o end.
Proof.
  revert o. induction es as [|[k0 v0] es IH]; intros o; simpl; [reflexivity|].
  rewrite IH, obj_get_set.
  assert (Happ : forall (l : Obj) k1 v1,
             obj_get k (l ++ [(k1, v1)])
             = match obj_get k l with
               | Some v => Some v
               | None => if String.eqb k k1 then Some v1 else None
               end).
  { induction l as [|[k2 v2] l IHl]; intros k1 v1; simpl; [reflexivity|].
    destruct (String.eqb k k2); [reflexivity|apply IHl]. }
  rewrite Happ. destruct (obj_get k (rev es)); [reflexivity|].
  destruct (String.eqb k k0); reflexivity.
Qed.

(** In the properties of an object no key occurs twice, so the last
    occurrence is the first. *)
Lemma obj_get_rev_entries k o : obj_get k (rev (obj_entries o)) = obj_get k o.
Proof.
  assert (Happ : forall (l1 l2 : Obj),
             obj_get k (l1 ++ l2)
             = match obj_get k l1 with Some v => Some v | None => obj_get k l2 end).
  { induction l1 as [|[k2 v2] l1 IHl]; intros l2; simpl; [reflexivity|].
    destruct (String.eqb k k2); [reflexivity|apply IHl]. }
  assert (Hrevf : forall (l : Obj) k',
             rev (List.filter (fun kv => negb (String.eqb (fst kv) k')) l)
             = List.filter (fun kv => negb (String.eqb (fst kv) k')) (rev l)).
  { induction l as [|e l IHl]; intros k'; simpl; [reflexivity|].
    rewrite List.filter_app. simpl. rewrite <- IHl.
    destruct (negb (String.eqb (fst e) k')); simpl;
      [reflexivity|rewrite List.app_nil_r; reflexivity]. }
  induction o as [|[k0 v0] o IH]; simpl; [reflexivity|].
  rewrite Happ, Hrevf. simpl.
  destruct (String.eqb_spec k k0) as [->|Hne].
  - rewrite obj_get_filter_same. reflexivity.
  - rewrite obj_get_filter_other by assumption. rewrite IH.
    destruct (obj_get k o); reflexivity.
Qed.

(** [Object.assign(target, source)] and the spread of an object: the
    properties of the source win. *)
Lemma obj_get_assign k (target source : Obj) :
  obj_get k (Object_assign target (VObj source))
  = match obj_get k source with Some v => Some v | None => obj_get k target end.
Proof.
  unfold Object_assign. simpl. rewrite obj_get_fold_set, obj_get_rev_entries.
  reflexivity.
Qed.

End ObjectFacts.

(** ** Induction on values, through arrays and objects *)
Section ValueInduction.

Variable P : Value -> Prop.
Hypothesis Hundef : P VUndefined.
Hypothesis Hnull : P VNull.
Hypothesis Hbool : forall b, P (VBool b).
Hypothesis Hnum : forall x, P (VNum x).
Hypothesis Hstr : forall s, P (VStr s).
Hypothesis Harr : forall l, Forall P l -> P (VArr l).
Hypothesis Hobj : forall o, Forall (fun kv => P (snd kv)) o -> P (VObj o).
Hypothesis Htime : forall t, P (VTimestamp t).
Hypothesis Hsentinel : P VServerTimestamp.


End ValueInduction.



Lemma json_value_resolve (now : N) (v : Value) :
  json_value v = true -> Firestore.resolve now v = v.
Proof. destruct v; simpl; congruence. Qed.

Lemma obj_get_new_document (k : string) (now : N) (data : Obj) :
  obj_get k (Firestore.new_document now data)
  = option_map (Firestore.resolve now) (obj_get k data).
Proof.
  unfold Firestore.new_document. rewrite <- (obj_get_entries k data).
  induction (obj_entries data) as [|[k0 v0] o IH]; simpl; [reflexivity|].
  destruct (String.eqb k k0); [reflexivity|exact IH].
Qed.

(** ** Truthiness *)

(** The values [!v] rejects: [undefined], [null], [false], the zeros, NaN and
    the empty string; arrays and objects, empty or not, pass. *)
Lemma falsy_values (v : Value) :
  truthy v = false <->
  v = VUndefined \/ v = VNull \/ v = VBool false \/ v = VStr ""
  \/ exists x, v = VNum x /\ (PrimFloat.eqb x 0 = true \/ PrimFloat.is_nan x = true).
Proof.
  split.
  - destruct v as [| |b|x|s|l|o|t|]; simpl; intros H; try discriminate; auto.
    + destruct b; [discriminate|auto].
    + right; right; right; right. exists x. split; [reflexivity|].
      apply negb_false_iff, orb_true_iff in H. exact H.
    + apply negb_false_iff, String.eqb_eq in H. subst. auto.
  - intros [->|[->|[->|[->|(x & -> & H)]]]]; simpl; try reflexivity.
    apply negb_false_iff, orb_true_iff. exact H.
Qed.

Lemma empty_array_truthy : truthy (VArr []) = true.
Proof. reflexivity. Qed.

Lemma empty_object_truthy : truthy (VObj []) = true.
Proof. reflexivity. Qed.

(** ** The signature check *)

(** For any operands, the check accepts a candidate exactly when it is the
    string of the digest of [order_id + "|" + payment_id]. *)
Lemma verify_signature_iff (toString : float -> string)
    (order_id payment_id : Value) (secret : string) (candidate : Value) :
  verify_signature toString order_id payment_id secret candidate = true
  <-> candidate
      = VStr (Crypto.hmac_sha256_hex secret
                ((js_to_string toString order_id +:+ "|")
                 +:+ js_to_string toString payment_id)).
Proof.
  unfold verify_signature, js_concat, strict_eq_string. simpl.
  destruct candidate; split; intros H; try discriminate.
  - apply String.eqb_eq in H. congruence.
  - injection H as ->. apply String.eqb_refl.
Qed.

(** C1: for all strings [a], [b] and [secret], the signature check of
    verify-payment accepts the hex HMAC-SHA256 digest of [a + "|" + b] keyed
    by [secret], and rejects every other candidate, whatever value it is.
    The check is a total function to [bool]: it has no failing case. *)
Theorem verify_signature_exact (toString : float -> string) (a b secret : string) :
  let digest := Crypto.hmac_sha256_hex secret ((a +:+ "|") +:+ b) in
  verify_signature toString (VStr a) (VStr b) secret (VStr digest) = true
  /\ forall candidate : Value,
       candidate <> VStr digest ->
       verify_signature toString (VStr a) (VStr b) secret candidate = false.
Proof.
  intros digest. split.
  - apply verify_signature_iff. reflexivity.
  - intros candidate Hne.
    destruct (verify_signature toString (VStr a) (VStr b) secret candidate) eqn:E;
      [|reflexivity].
    apply verify_signature_iff in E. contradiction.
Qed.

(** ** Running the handlers

    Each handler, run in a world, comes to an outcome that can be written
    down without the monad: the equations below are what the later proofs
    start from. *)
Ltac run :=
  unfold try_catch, db_doc, db_update, db_add, db_get, db_orders_of_user, db_call,
    razorpay_orders_create, console_error, caught, mbind, M_bind, mret, M_ret,
    throw, ask, emit, read_world;
  cbn [orders log].

Section Runs.

Variables (env : Env) (w : World).

Lemma run_bind {A B} (m : M A) (f : A -> M B) :
  (m ≫= f) env w
  = match m env w with
    | (w', Ok a) => f a env w'
    | (w', Throw e) => (w', Throw e)
    end.
Proof. reflexivity. Qed.

Lemma run_update (label : string) (id : Value) (data : Obj) (ok : Response) :
  try_catch
    (ref ← db_doc id;
     db_update ref data;;
     mret ok)
    (fun error =>
       console_error label error;;
       mret (res_status_json 500
               [("success", VBool false);
                ("error", get_prop error "message")])) env w
  = update_outcome label id data ok env w.
Proof.
  unfold update_outcome. run.
  destruct id as [| | | |ref| | | |]; try reflexivity.
  destruct (Firestore.valid_doc_id ref); [|reflexivity].
  destruct (Firestore.valid_update data); [|reflexivity].
  destruct (db_fault env); [reflexivity|].
  cbn [orders log]. destruct (orders w !! ref); reflexivity.
Qed.

Lemma verify_payment_run (req : Request) :
  verify_payment req env w
  = let razorpay_payment_id := get (body req) "razorpay_payment_id" in
    let razorpay_signature := get (body req) "razorpay_signature" in
    if verify_signature (Number_toString env) (get (body req) "razorpay_order_id")
         razorpay_payment_id
         (env_or (RAZORPAY_KEY_SECRET env) "your_razorpay_secret_here")
         razorpay_signature
    then update_outcome "Payment verification error:"
           (get (body req) "firebaseOrderId")
           (paid_update razorpay_payment_id razorpay_signature)
           payment_verified env w
    else update_outcome "Payment verification error:"
           (get (body req) "firebaseOrderId") failed_update
           payment_verification_failed env w.
Proof.
  cbv zeta. rewrite <- !run_update.
  unfold verify_payment, try_catch. rewrite run_bind. unfold ask.
  destruct (verify_signature _ _ _ _ _); reflexivity.
Qed.

Lemma update_order_status_run (req : Request) :
  update_order_status req env w
  = update_outcome "Update order status error:"
      (get (body req) "firebaseOrderId")
      (updateData (get (body req) "status") (get (body req) "paymentDetails"))
      status_updated env w.
Proof. rewrite <- run_update. reflexivity. Qed.

Lemma create_order_run (req : Request) :
  create_order req env w
  = let userId := get (body req) "userId" in
    let userEmail := get (body req) "userEmail" in
    let options :=
      razorpayOrderOptions (Number_toString env) userId userEmail
        (get (body req) "amount") in
    let label := "Create order error:" in
    if forallb (fun field => truthy (get (body req) field)) required_fields then
      let w1 := log [GatewayOrderCreate options] w in
      match razorpay_api env options with
      | inl error => caught label error w1
      | inr razorpayOrder =>
          let data :=
            firebaseOrderData userId userEmail (get (body req) "items")
              (get (body req) "totalAmount") (get (body req) "userDetails")
              razorpayOrder in
          let id := Firestore.autoId (id_seed env) in
          let w2 := gateway_creates razorpayOrder w1 in
          if Firestore.valid_add data then
            let w3 := log [StoreAdd data] w2 in
            match db_fault env with
            | Some message => caught label (js_error message) w3
            | None =>
                match orders w !! id with
                | Some _ => caught label already_exists w3
                | None =>
                    (store_writes id (Firestore.new_document (clock w) data) w3,
                     Ok (order_created razorpayOrder id))
                end
            end
          else caught label invalid_document_data w2
      end
    else (w, Ok missing_required_fields).
Proof.
  cbv zeta. unfold create_order, try_catch. rewrite run_bind. unfold ask.
  unfold required_fields, forallb.
  destruct (truthy (get (body req) "userId")); [|reflexivity].
  destruct (truthy (get (body req) "userEmail")); [|reflexivity].
  destruct (truthy (get (body req) "items")); [|reflexivity].
  destruct (truthy (get (body req) "totalAmount")); [|reflexivity].
  destruct (truthy (get (body req) "userDetails")); [|reflexivity].
  destruct (truthy (get (body req) "amount")); [|reflexivity].
  cbn [negb orb andb]. run.
  destruct (razorpay_api env _) as [error|razorpayOrder]; [reflexivity|].
  destruct (Firestore.valid_add _); [|reflexivity].
  destruct (db_fault env); [reflexivity|].
  cbn [orders log gateway_creates]. destruct (orders w !! _); reflexivity.
Qed.

Lemma get_order_run (req : Request) :
  get_order req env w
  = let id := param req in
    let label := "Get order error:" in
    if Firestore.valid_doc_id id then
      let w1 := log [StoreGet id] w in
      match db_fault env with
      | Some message => caught label (js_error message) w1
      | None =>
          (w1, Ok match orders w !! id with
                  | None => order_not_found
                  | Some data => order_found id data
                  end)
      end
    else caught label invalid_document_path w.
Proof.
  cbv zeta. unfold get_order. run.
  destruct (Firestore.valid_doc_id (param req)); [|reflexivity].
  destruct (db_fault env); [reflexivity|].
  cbn [orders log]. destruct (orders w !! param req); reflexivity.
Qed.

Lemma push_all {A B} (f : A -> B) (l : list A) (acc : list B) :
  fold_left (fun acc x => acc ++ [f x]) l acc = acc ++ map f l.
Proof.
  revert acc. induction l as [|x l IH]; intros acc; simpl.
  - rewrite app_nil_r. reflexivity.
  - rewrite IH, <- app_assoc. reflexivity.
Qed.

Lemma get_orders_run (req : Request) :
  get_orders req env w
  = let userId := param req in
    let w1 := log [StoreQuery userId] w in
    match db_fault env with
    | Some message => caught "Get user orders error:" (js_error message) w1
    | None =>
        (w1,
         Ok (res_json
               [("success", VBool true);
                ("orders",
                 VArr (map (fun doc => with_id (fst doc) (snd doc))
                           (Firestore.query_eq_desc "userId" userId "createdAt"
                              (orders w))))]))
    end.
Proof.
  cbv zeta. unfold get_orders. run.
  destruct (db_fault env); [reflexivity|].
  cbn [orders log].
  rewrite (push_all (fun doc => with_id (fst doc) (snd doc))). reflexivity.
Qed.

End Runs.

(** Every handler ends in a response: what its body throws, its [catch]
    turns into a 500. *)
Lemma handle_responds (c : Call) (req : Request) (env : Env) (w : World) :
  exists r, snd (handle c req env w) = Ok r.
Proof.
  destruct c; simpl;
    [unfold create_order|unfold verify_payment|unfold update_order_status
    |unfold get_order|unfold get_orders];
    unfold try_catch;
    match goal with |- context [match ?b env w with _ => _ end] =>
      destruct (b env w) as [w' [r|e]] end;
    eexists; reflexivity.
Qed.


(** Whatever its arguments, an update leaves the collection as it was or
    rewrites the one document it names. *)
Lemma update_outcome_orders (label : string) (id : Value) (data : Obj)
    (ok : Response) (env : Env) (w : World) :
  let w' := fst (update_outcome label id data ok env w) in
  gateway_orders w' = gateway_orders w
  /\ ((orders w' = orders w /\ clock w' = clock w)
      \/ exists ref doc,
           id = VStr ref /\ orders w !! ref = Some doc
           /\ Firestore.valid_update data = true
           /\ orders w' = <[ref := Firestore.apply_update (clock w) data doc]> (orders w)
           /\ clock w' = (clock w + 1)%N).
Proof.
  unfold update_outcome, caught.
  destruct id as [| | | |ref| | | |]; cbn; auto.
  destruct (Firestore.valid_doc_id ref); cbn; auto.
  destruct (Firestore.valid_update data) eqn:Hdata; cbn; auto.
  destruct (db_fault env); cbn; auto.
  destruct (orders w !! ref) as [doc|] eqn:Hdoc; cbn; auto.
  split; [reflexivity|]. right. exists ref, doc. auto.
Qed.




(** ** create-order *)

(** C3, as the code has it: when one of the six required inputs is falsy
    (absent, [null], [false], zero, NaN or the empty string), create-order
    answers 400 'Missing required fields' and leaves the world as it was: no
    call to the gateway, no write to the store, nothing logged. *)
Theorem create_order_rejects_falsy (req : Request) (env : Env) (w : World)
    (field : string) :
  In field required_fields ->
  truthy (get (body req) field) = false ->
  create_order req env w = (w, Ok missing_required_fields).
Proof.
  intros Hin Hfalsy. rewrite create_order_run. cbv zeta.
  destruct (forallb _ required_fields) eqn:Hall; [|reflexivity].
  rewrite forallb_forall in Hall. rewrite (Hall field Hin) in Hfalsy.
  discriminate.
Qed.

Lemma create_order_rejects_falsy_witness :
  create_order (Run.order_of "" Run.one_item) (Run.env 0) initial_world
  = (initial_world, Ok missing_required_fields).
Proof.
  apply (create_order_rejects_falsy _ _ _ "userId"); [simpl; auto|reflexivity].
Defined.

(** C3 as stated fails on an empty [items] array: [![]] is [false], so the
    request passes the check, the gateway order is created and the order is
    stored. *)
Lemma create_order_accepts_empty_items :
  let out := create_order (Run.order_of "u1" (VArr [])) (Run.env 0) initial_world in
  get (body (Run.order_of "u1" (VArr []))) "items" = VArr []
  /\ (exists r, snd out = Ok r /\ status r = 200%N)
  /\ length (gateway_orders (fst out)) = 1%nat
  /\ (exists d, orders (fst out) !! Run.id0 = Some d /\ get d "items" = VArr []).
Proof.
  split; [reflexivity|]. split; [|split].
  - eexists. split; vm_compute; reflexivity.
  - vm_compute. reflexivity.
  - eexists. split; vm_compute; reflexivity.
Qed.

(** C4: when create-order succeeds (answers 200), the response carries the
    id of the order the gateway created, the id of the new local document,
    and the amount and currency the gateway returned; the document stored
    under that local id has status [pending] and [null] for payment id and
    signature. *)
Theorem create_order_success (req : Request) (env : Env) (w w' : World)
    (r : Response) :
  create_order req env w = (w', Ok r) ->
  status r = 200%N ->
  exists (options razorpayOrder record : Obj),
    razorpay_api env options = inr razorpayOrder
    /\ In razorpayOrder (gateway_orders w')
    /\ json r = [("success", VBool true);
                 ("razorpayOrderId", get razorpayOrder "id");
                 ("firebaseOrderId", VStr (Firestore.autoId (id_seed env)));
                 ("amount", get razorpayOrder "amount");
                 ("currency", get razorpayOrder "currency")]
    /\ orders w' !! Firestore.autoId (id_seed env) = Some record
    /\ get record "status" = VStr "pending"
    /\ get record "razorpayPaymentId" = VNull
    /\ get record "razorpaySignature" = VNull.
Proof.
  rewrite create_order_run. cbv zeta. unfold caught.
  destruct (forallb _ required_fields);
    [|intros H; injection H as _ <-; discriminate].
  destruct (razorpay_api env _) as [error|razorpayOrder] eqn:Hgateway;
    [intros H; injection H as _ <-; discriminate|].
  destruct (Firestore.valid_add _);
    [|intros H; injection H as _ <-; discriminate].
  destruct (db_fault env);
    [intros H; injection H as _ <-; discriminate|].
  destruct (orders w !! _);
    [intros H; injection H as _ <-; discriminate|].
  intros H _. injection H as <- <-.
  eexists _, razorpayOrder, _. split; [exact Hgateway|].
  split; [cbn; apply in_or_app; right; left; reflexivity|].
  split; [reflexivity|]. split; [apply lookup_insert_eq|].
  unfold get. rewrite !obj_get_new_document. cbn. auto.
Qed.

Lemma create_order_success_witness :
  exists (options razorpayOrder record : Obj),
    razorpay_api (Run.env 0) options = inr razorpayOrder
    /\ In razorpayOrder (gateway_orders Run.created)
    /\ json (order_created [("id", VStr "order_abc");
                            ("amount", VNum 10000);
                            ("currency", VStr "INR")] Run.id0)
       = [("success", VBool true);
          ("razorpayOrderId", get razorpayOrder "id");
          ("firebaseOrderId", VStr (Firestore.autoId 0));
          ("amount", get razorpayOrder "amount");
          ("currency", get razorpayOrder "currency")]
    /\ orders Run.created !! Firestore.autoId 0 = Some record
    /\ get record "status" = VStr "pending"
    /\ get record "razorpayPaymentId" = VNull
    /\ get record "razorpaySignature" = VNull.
Proof.
  apply (create_order_success (Run.order_of "u1" Run.one_item) (Run.env 0)
           initial_world Run.created
           (order_created [("id", VStr "order_abc");
                           ("amount", VNum 10000);
                           ("currency", VStr "INR")] Run.id0));
    [vm_compute; reflexivity|reflexivity].
Defined.

Ltac world_simpl :=
  cbn [fst snd orders clock gateway_orders trace log gateway_creates store_writes
       status json server_error res_status_json res_json].




(** ** verify-payment *)





(** An environment variable that is set to the empty string falls back to
    the literal as well. *)
Lemma empty_secret_falls_back :
  env_or (Some "") "your_razorpay_secret_here" = "your_razorpay_secret_here".
Proof. reflexivity. Qed.

(** ** Object.assign, for any source *)

Lemma obj_get_app (k : string) (l1 l2 : Obj) :
  obj_get k (l1 ++ l2)
  = match obj_get k l1 with Some v => Some v | None => obj_get k l2 end.
Proof.
  induction l1 as [|[k1 v1] l1 IH]; simpl; [reflexivity|].
  destruct (String.eqb k k1); [reflexivity|exact IH].
Qed.

Lemma obj_get_None_keys (k : string) (l : Obj) :
  obj_get k l = None <-> ~ In k (map fst l).
Proof.
  induction l as [|[k1 v1] l IH]; simpl; [tauto|].
  destruct (String.eqb_spec k k1) as [->|Hne].
  - split; [discriminate|]. intros H. exfalso. apply H. left. reflexivity.
  - rewrite IH. split; [intros H [Heq|Hin]; [congruence|tauto]|tauto].
Qed.

Lemma obj_get_rev_unique (k : string) (l : Obj) :
  List.NoDup (map fst l) -> obj_get k (rev l) = obj_get k l.
Proof.
  induction l as [|[k1 v1] l IH]; simpl; [reflexivity|].
  intros Hnd. apply NoDup_cons_iff in Hnd as [Hnotin Hnd].
  rewrite obj_get_app, IH by exact Hnd. simpl.
  destruct (String.eqb_spec k k1) as [->|Hne].
  - apply obj_get_None_keys in Hnotin. rewrite Hnotin. reflexivity.
  - destruct (obj_get k l); reflexivity.
Qed.

Lemma index_key_inj (i j : nat) : index_key i = index_key j -> i = j.
Proof.
  unfold index_key. intros H. apply Unsigned.to_uint_inj.
  assert (Hs : Some (Nat.to_uint i) = Some (Nat.to_uint j))
    by (rewrite <- !NilEmpty.usu, H; reflexivity).
  congruence.
Qed.

Lemma indexed_keys {A} (g : A -> Value) (l : list A) (n : nat) (k : string) :
  In k (map fst (imap (fun i x => (index_key (n + i), g x)) l)) ->
  exists i, k = index_key (n + i).
Proof.
  revert n. induction l as [|x l IH]; intros n; simpl; [tauto|].
  intros [<-|Hin]; [exists 0%nat; reflexivity|].
  destruct (IH (S n)) as [i ->].
  - erewrite imap_ext; [exact Hin|]. intros i y _. simpl.
    rewrite Nat.add_succ_r. reflexivity.
  - exists (S i). rewrite Nat.add_succ_r. reflexivity.
Qed.

Lemma indexed_unique {A} (g : A -> Value) (l : list A) (n : nat) :
  List.NoDup (map fst (imap (fun i x => (index_key (n + i), g x)) l)).
Proof.
  revert n. induction l as [|x l IH]; intros n; simpl; [constructor|].
  assert (Htail : imap ((fun i x => (index_key (n + i), g x)) ∘ S) l
                  = imap (fun i x => (index_key (S n + i), g x)) l).
  { apply imap_ext. intros i y _. simpl. rewrite Nat.add_succ_r. reflexivity. }
  rewrite Htail. constructor; [|apply IH].
  intros Hin. apply indexed_keys in Hin as [i Hi].
  apply index_key_inj in Hi. lia.
Qed.

Lemma entries_unique (o : Obj) : List.NoDup (map fst (obj_entries o)).
Proof.
  induction o as [|[k v] o IH]; simpl; [constructor|].
  constructor.
  - apply obj_get_None_keys, obj_get_filter_same.
  - clear -IH. induction (obj_entries o) as [|[k1 v1] l IHl]; simpl; [constructor|].
    apply NoDup_cons_iff in IH as [Hnotin Hnd].
    destruct (negb (String.eqb k1 k)); simpl; [|apply IHl, Hnd].
    constructor; [|apply IHl, Hnd].
    intros Hin. apply Hnotin. apply in_map_iff in Hin as ([k2 v2] & <- & Hin).
    apply filter_In in Hin as [Hin _]. apply in_map_iff. exists (k2, v2). auto.
Qed.

Lemma own_props_unique (v : Value) : List.NoDup (map fst (own_props v)).
Proof.
  destruct v; simpl; try constructor.
  - apply (indexed_unique (fun c => VStr (String c EmptyString)) _ 0).
  - apply (indexed_unique (fun x => x) _ 0).
  - apply entries_unique.
Qed.

(** [Object.assign(target, source)]: the properties of the source win. *)
Lemma obj_get_Object_assign (k : string) (target : Obj) (source : Value) :
  obj_get k (Object_assign target source)
  = match obj_get k (own_props source) with
    | Some v => Some v
    | None => obj_get k target
    end.
Proof.
  unfold Object_assign.
  rewrite obj_get_fold_set, obj_get_rev_unique by apply own_props_unique.
  reflexivity.
Qed.

(** The data update-order-status writes: the caller's fields over [status]
    and the fresh [updatedAt]. *)
Lemma obj_get_updateData (k : string) (status paymentDetails : Value) :
  obj_get k (updateData status paymentDetails)
  = match extra_field paymentDetails k with
    | Some v => Some v
    | None => obj_get k [("status", status); ("updatedAt", VServerTimestamp)]
    end.
Proof.
  unfold updateData, extra_field. destruct (truthy paymentDetails).
  - apply obj_get_Object_assign.
  - reflexivity.
Qed.

(** ** Updates, field by field *)

Lemma set_path_other (p : list string) (v : Value) (o : Obj) (k : string) :
  hd_error p <> Some k -> obj_get k (Firestore.set_path p v o) = obj_get k o.
Proof.
  destruct p as [|h [|h' p']]; simpl; [reflexivity| |];
    intros Hne; rewrite obj_get_set;
    destruct (String.eqb_spec k h); congruence.
Qed.

Lemma set_path_keeps (p : list string) (v : Value) (o : Obj) (k : string) :
  obj_get k o <> None -> obj_get k (Firestore.set_path p v o) <> None.
Proof.
  destruct p as [|h [|h' p']]; simpl; [tauto| |];
    intros Hsome; rewrite obj_get_set;
    destruct (String.eqb k h); congruence.
Qed.


(** An update leaves no field out: what was there stays there. *)
Lemma apply_update_keeps (now : N) (data doc : Obj) (k : string) :
  obj_get k doc <> None -> obj_get k (Firestore.apply_update now data doc) <> None.
Proof.
  unfold Firestore.apply_update. revert doc.
  induction (obj_entries data) as [|e es IH]; intros doc Hsome; simpl; [exact Hsome|].
  apply IH, set_path_keeps, Hsome.
Qed.

Section UpdateField.

Variables (now : N) (k : string).

Let write (d : Obj) (kv : string * Value) : Obj :=
  Firestore.set_path (Firestore.field_path (fst kv)) (Firestore.resolve now (snd kv)) d.

Lemma fold_write_other (es : Obj) (doc : Obj) :
  (forall e, In e es -> hd_error (Firestore.field_path (fst e)) <> Some k) ->
  obj_get k (fold_left write es doc) = obj_get k doc.
Proof.
  revert doc. induction es as [|e es IH]; intros doc Hes; simpl; [reflexivity|].
  rewrite IH by (intros e' He'; apply Hes; right; exact He').
  apply set_path_other, Hes. left. reflexivity.
Qed.


End UpdateField.

Lemma obj_get_In_entries (k : string) (v : Value) (o : Obj) :
  obj_get k o = Some v -> In (k, v) (obj_entries o).
Proof.
  induction o as [|[k0 v0] o IH]; simpl; [discriminate|].
  destruct (String.eqb_spec k k0) as [->|Hne].
  - intros H. injection H as ->. left. reflexivity.
  - intros H. right. apply filter_In. split; [apply IH, H|].
    simpl. apply negb_true_iff, String.eqb_neq. exact Hne.
Qed.



(** ** update-order-status *)




(** ** order/:orderId *)

(** C9, as the code has it: get-order always ends in a response; for a
    valid document id and a reachable store, an id that is not in the
    collection is answered 404 'Order not found', and an id that is there is
    answered 200 with the fields of the stored record and, under [id], the
    id of the document, unless the record has a field named [id] of its own,
    which then stands in its place. *)
Theorem get_order_answers (req : Request) (env : Env) (w : World) :
  let out := get_order req env w in
  (exists r, snd out = Ok r)
  /\ (Firestore.valid_doc_id (param req) = true ->
      db_fault env = None ->
      match orders w !! param req with
      | None =>
          snd out = Ok order_not_found
          /\ status order_not_found = 404%N
          /\ get (json order_not_found) "error" = VStr "Order not found"
      | Some data =>
          exists order,
            snd out = Ok (res_json [("success", VBool true); ("order", VObj order)])
            /\ forall k,
                 obj_get k order
                 = match obj_get k data with
                   | Some v => Some v
                   | None => if String.eqb k "id" then Some (VStr (param req))
                             else None
                   end
      end).
Proof.
  cbv zeta. split; [apply (handle_responds GetOrder)|].
  intros Hvalid Hfault. rewrite get_order_run. cbv zeta. rewrite Hvalid, Hfault.
  destruct (orders w !! param req) as [data|].
  - eexists. split; [reflexivity|]. intros k. rewrite obj_get_assign. simpl.
    destruct (obj_get k data); [reflexivity|].
    destruct (String.eqb k "id"); reflexivity.
  - repeat split.
Qed.

Lemma get_order_answers_witness :
  exists order,
    snd (get_order (Run.read Run.id0) (Run.env 0) Run.created)
    = Ok (res_json [("success", VBool true); ("order", VObj order)])
    /\ forall k,
         obj_get k order
         = match obj_get k (Firestore.new_document 0
                              (firebaseOrderData (VStr "u1") (VStr "a@b.com")
                                 Run.one_item (VNum 100) (VObj [("name", VStr "A")])
                                 [("id", VStr "order_abc")])) with
           | Some v => Some v
           | None => if String.eqb k "id" then Some (VStr Run.id0) else None
           end.
Proof.
  apply (proj2 (get_order_answers (Run.read Run.id0) (Run.env 0) Run.created)
           eq_refl eq_refl).
Defined.

Lemma reachable_created : reachable Run.created.
Proof. apply reach_step, reach_init. Qed.

(** C9 as stated fails on a record that has a field named [id], which
    update-order-status can write: the answer carries that field and not the
    id the record is stored under. *)
Lemma get_order_id_shadowed :
  reachable Run.with_id_field
  /\ Run.id0 = "AAAAAAAAAAAAAAAAAAAA"
  /\ exists data order,
       orders Run.with_id_field !! Run.id0 = Some data
       /\ snd (get_order (Run.read Run.id0) (Run.env 0) Run.with_id_field)
          = Ok (res_json [("success", VBool true); ("order", VObj order)])
       /\ get order "id" = VStr "other".
Proof.
  split; [apply reach_step, reachable_created|]. split; [reflexivity|].
  eexists _, _. split; [vm_compute; reflexivity|].
  split; [vm_compute; reflexivity|reflexivity].
Qed.

(** ** The order of stored values *)

Lemma lex_antisym {A} (cmp : A -> A -> comparison) :
  (forall x y, cmp y x = CompOpp (cmp x y)) ->
  forall l1 l2, Firestore.lex cmp l2 l1 = CompOpp (Firestore.lex cmp l1 l2).
Proof.
  intros Hcmp. induction l1 as [|x l1 IH]; intros [|y l2]; simpl; try reflexivity.
  rewrite Hcmp, IH. destruct (cmp x y); reflexivity.
Qed.

Lemma compare_num_antisym (x y : float) :
  Firestore.compare_num y x = CompOpp (Firestore.compare_num x y).
Proof.
  unfold Firestore.compare_num.
  destruct (PrimFloat.is_nan x), (PrimFloat.is_nan y); try reflexivity.
  apply Z.compare_antisym.
Qed.

Lemma compare_entry_antisym (cmp : Value -> Value -> comparison) :
  (forall x y, cmp y x = CompOpp (cmp x y)) ->
  forall e1 e2,
    Firestore.compare_entry cmp e2 e1 = CompOpp (Firestore.compare_entry cmp e1 e2).
Proof.
  intros Hcmp e1 e2. unfold Firestore.compare_entry.
  rewrite (String.compare_antisym (fst e2) (fst e1)), (Hcmp (snd e1) (snd e2)).
  destruct (String.compare (fst e1) (fst e2)); reflexivity.
Qed.

Lemma compare_fuel_antisym (n : nat) (a b : Value) :
  Firestore.compare_fuel n b a = CompOpp (Firestore.compare_fuel n a b).
Proof.
  revert a b. induction n as [|n IH]; intros a b; destruct a, b; simpl;
    try reflexivity;
    try apply compare_num_antisym;
    try apply String.compare_antisym;
    try apply N.compare_antisym;
    try (apply lex_antisym; try apply compare_entry_antisym; exact IH).
  all: match goal with
       | b1 : bool, b2 : bool |- _ => destruct b1, b2; reflexivity
       end.
Qed.

Lemma compare_antisym (a b : Value) :
  Firestore.compare b a = CompOpp (Firestore.compare a b).
Proof.
  unfold Firestore.compare. rewrite Nat.max_comm. apply compare_fuel_antisym.
Qed.

Lemma compare_docs_antisym (key : string) (a b : string * Obj) :
  Firestore.compare_docs key b a = CompOpp (Firestore.compare_docs key a b).
Proof.
  unfold Firestore.compare_docs.
  rewrite (compare_antisym (get (snd a) key) (get (snd b) key)),
    (String.compare_antisym (fst b) (fst a)).
  destruct (Firestore.compare (get (snd a) key) (get (snd b) key)),
    (String.compare (fst a) (fst b)); reflexivity.
Qed.

Lemma before_desc_total (key : string) (a b : string * Obj) :
  Firestore.before_desc key a b = false -> Firestore.before_desc key b a = true.
Proof.
  unfold Firestore.before_desc. rewrite (compare_docs_antisym key a b).
  destruct (Firestore.compare_docs key a b); simpl; congruence.
Qed.

(** ** The sort of the query *)
Section SortDesc.

Variable key : string.

Let before (a b : string * Obj) : Prop := Firestore.before_desc key a b = true.

Lemma insert_desc_perm (x : string * Obj) (l : list (string * Obj)) :
  Permutation (Firestore.insert_desc key x l) (x :: l).
Proof.
  induction l as [|y l IH]; simpl; [reflexivity|].
  destruct (Firestore.before_desc key x y); [reflexivity|].
  rewrite IH. apply perm_swap.
Qed.

Lemma sort_desc_perm (l : list (string * Obj)) :
  Permutation (Firestore.sort_desc key l) l.
Proof.
  induction l as [|x l IH]; simpl; [reflexivity|].
  rewrite insert_desc_perm, IH. reflexivity.
Qed.

Lemma insert_desc_hd (x a : string * Obj) (l : list (string * Obj)) :
  before a x -> HdRel before a l -> HdRel before a (Firestore.insert_desc key x l).
Proof.
  intros Hax Hal. destruct l as [|y l]; simpl; [constructor; exact Hax|].
  destruct (Firestore.before_desc key x y); constructor; [exact Hax|].
  inversion Hal; assumption.
Qed.

Lemma insert_desc_sorted (x : string * Obj) (l : list (string * Obj)) :
  Sorted before l -> Sorted before (Firestore.insert_desc key x l).
Proof.
  induction l as [|y l IH]; intros Hs; simpl.
  - repeat constructor.
  - destruct (Firestore.before_desc key x y) eqn:Hxy.
    + constructor; [exact Hs|constructor; exact Hxy].
    + inversion Hs as [|? ? Hs' Hhd]; subst. constructor; [apply IH, Hs'|].
      apply insert_desc_hd; [apply before_desc_total, Hxy|exact Hhd].
Qed.

Lemma sort_desc_sorted (l : list (string * Obj)) :
  Sorted before (Firestore.sort_desc key l).
Proof.
  induction l as [|x l IH]; simpl; [constructor|].
  apply insert_desc_sorted, IH.
Qed.

End SortDesc.

(** Sorted for the query is descending in [createdAt], ties allowed. *)
Lemma sorted_descending (l : list (string * Obj)) :
  Sorted (fun a b => Firestore.before_desc "createdAt" a b = true) l ->
  descending l.
Proof.
  unfold descending. intros Hs.
  induction Hs as [|a l Hs IH Hhd]; constructor; [exact IH|].
  destruct Hhd as [|b l Hab]; constructor.
  unfold Firestore.before_desc, Firestore.compare_docs in Hab.
  intros Hlt. rewrite Hlt in Hab. discriminate.
Qed.

(** What the query returns: each matching document once, in descending
    order of [createdAt]. *)
Lemma query_eq_desc_spec (coll : gmap string Obj) (userId : string) :
  let docs := Firestore.query_eq_desc "userId" userId "createdAt" coll in
  List.NoDup docs
  /\ (forall id d,
        In (id, d) docs
        <-> coll !! id = Some d
            /\ get d "userId" = VStr userId
            /\ Firestore.has_field "createdAt" d = true)
  /\ descending docs.
Proof.
  cbv zeta. unfold Firestore.query_eq_desc.
  set (keep := fun kv : string * Obj =>
                 Firestore.field_is "userId" userId (snd kv)
                 && Firestore.has_field "createdAt" (snd kv)).
  pose proof (sort_desc_perm "createdAt" (List.filter keep (map_to_list coll))) as Hperm.
  split; [|split].
  - eapply Permutation_NoDup; [symmetry; exact Hperm|].
    apply List.NoDup_filter. apply NoDup_ListNoDup, NoDup_map_to_list.
  - intros id d. rewrite (Permutation_in' (eq_refl (id, d)) Hperm).
    rewrite filter_In, <- list_elem_of_In, elem_of_map_to_list.
    unfold keep. simpl. rewrite andb_true_iff.
    assert (Hfield : Firestore.field_is "userId" userId d = true
                     <-> get d "userId" = VStr userId).
    { unfold Firestore.field_is, get.
      destruct (obj_get "userId" d) as [[| | | |s| | | |]|];
        split; try discriminate.
      - intros H. apply String.eqb_eq in H. congruence.
      - intros H. injection H as ->. apply String.eqb_refl. }
    rewrite Hfield. tauto.
  - apply sorted_descending, sort_desc_sorted.
Qed.

(** ** What the handlers do to the collection *)

Lemma create_order_orders (req : Request) (env : Env) (w : World) :
  let w' := fst (create_order req env w) in
  (orders w' = orders w /\ clock w' = clock w)
  \/ exists razorpayOrder,
       let id := Firestore.autoId (id_seed env) in
       let data :=
         firebaseOrderData (get (body req) "userId") (get (body req) "userEmail")
           (get (body req) "items") (get (body req) "totalAmount")
           (get (body req) "userDetails") razorpayOrder in
       orders w !! id = None
       /\ orders w' = <[id := Firestore.new_document (clock w) data]> (orders w)
       /\ clock w' = (clock w + 1)%N.
Proof.
  cbv zeta. rewrite create_order_run. cbv zeta. unfold caught.
  destruct (forallb _ required_fields); [|auto].
  destruct (razorpay_api env _) as [error|razorpayOrder]; [auto|].
  destruct (Firestore.valid_add _); [|auto].
  destruct (db_fault env); [auto|].
  destruct (orders w !! _) eqn:Hfresh; [auto|].
  right. exists razorpayOrder. auto.
Qed.

Lemma verify_payment_orders (req : Request) (env : Env) (w : World) :
  let w' := fst (verify_payment req env w) in
  (orders w' = orders w /\ clock w' = clock w)
  \/ exists id doc data,
       get (body req) "firebaseOrderId" = VStr id
       /\ orders w !! id = Some doc
       /\ (data = paid_update (get (body req) "razorpay_payment_id")
                    (get (body req) "razorpay_signature")
           \/ data = failed_update)
       /\ orders w' = <[id := Firestore.apply_update (clock w) data doc]> (orders w)
       /\ clock w' = (clock w + 1)%N.
Proof.
  cbv zeta. rewrite verify_payment_run. cbv zeta.
  destruct (verify_signature _ _ _ _ _);
    match goal with |- context [update_outcome ?l ?i ?d ?ok env w] =>
      destruct (update_outcome_orders l i d ok env w)
        as [_ [H|(id & doc & Hid & Hdoc & _ & Horders & Hclock)]];
      [left; exact H|right; exists id, doc, d]
    end; auto 10.
Qed.

Lemma update_order_status_orders (req : Request) (env : Env) (w : World) :
  let w' := fst (update_order_status req env w) in
  (orders w' = orders w /\ clock w' = clock w)
  \/ exists id doc data,
       orders w !! id = Some doc
       /\ orders w' = <[id := Firestore.apply_update (clock w) data doc]> (orders w)
       /\ clock w' = (clock w + 1)%N.
Proof.
  cbv zeta. rewrite update_order_status_run.
  match goal with |- context [update_outcome ?l ?i ?d ?ok env w] =>
    destruct (update_outcome_orders l i d ok env w)
      as [_ [H|(id & doc & Hid & Hdoc & _ & Horders & Hclock)]];
    [left; exact H|right; exists id, doc, d]
  end; auto.
Qed.

Lemma get_order_orders (req : Request) (env : Env) (w : World) :
  let w' := fst (get_order req env w) in
  orders w' = orders w /\ clock w' = clock w.
Proof.
  cbv zeta. rewrite get_order_run. cbv zeta. unfold caught.
  destruct (Firestore.valid_doc_id _); [|auto]. destruct (db_fault env); auto.
Qed.

Lemma get_orders_orders (req : Request) (env : Env) (w : World) :
  let w' := fst (get_orders req env w) in
  orders w' = orders w /\ clock w' = clock w.
Proof.
  cbv zeta. rewrite get_orders_run. cbv zeta. unfold caught.
  destruct (db_fault env); auto.
Qed.

Lemma has_field_iff (k : string) (d : Obj) :
  Firestore.has_field k d = true <-> obj_get k d <> None.
Proof.
  unfold Firestore.has_field. destruct (obj_get k d); split; congruence.
Qed.

(** In every world the service can bring about, every stored order has its
    [createdAt]: create-order writes it and no update takes a field away. *)
Lemma reachable_have_createdAt (w : World) : reachable w -> all_have_createdAt w.
Proof.
  induction 1 as [|w c req env Hreach IH]; intros id d.
  - simpl. rewrite lookup_empty. discriminate.
  - unfold world_after. destruct c; simpl.
    + destruct (create_order_orders req env w) as [[-> _]|(ro & Hfresh & -> & _)];
        [apply IH|].
      rewrite lookup_insert. case_decide; [|apply IH].
      intros Heq. injection Heq as <-. apply has_field_iff.
      rewrite obj_get_new_document. discriminate.
    + destruct (verify_payment_orders req env w)
        as [[-> _]|(id' & doc & data & _ & Hdoc & _ & -> & _)]; [apply IH|].
      rewrite lookup_insert. case_decide; [|apply IH].
      intros Heq. injection Heq as <-. apply has_field_iff, apply_update_keeps.
      apply has_field_iff, (IH id'), Hdoc.
    + destruct (update_order_status_orders req env w)
        as [[-> _]|(id' & doc & data & Hdoc & -> & _)]; [apply IH|].
      rewrite lookup_insert. case_decide; [|apply IH].
      intros Heq. injection Heq as <-. apply has_field_iff, apply_update_keeps.
      apply has_field_iff, (IH id'), Hdoc.
    + destruct (get_order_orders req env w) as [-> _]. apply IH.
    + destruct (get_orders_orders req env w) as [-> _]. apply IH.
Qed.

(** ** orders/:userId *)

(** C8, as the code has it: in every world the service can bring about,
    with the store reachable, get-orders answers 200 with [success] and the
    stored orders whose [userId] is the given id, each once and with its id,
    in descending order of [createdAt] in which equal values may follow each
    other; when the user has no order the list is empty. *)
Theorem get_orders_lists_user_orders (req : Request) (env : Env) (w : World) :
  reachable w ->
  db_fault env = None ->
  exists docs,
    snd (get_orders req env w)
    = Ok (res_json
            [("success", VBool true);
             ("orders", VArr (map (fun doc => with_id (fst doc) (snd doc)) docs))])
    /\ List.NoDup docs
    /\ (forall id d,
          In (id, d) docs
          <-> orders w !! id = Some d /\ get d "userId" = VStr (param req))
    /\ descending docs
    /\ ((forall id d, orders w !! id = Some d -> get d "userId" <> VStr (param req)) ->
        docs = []).
Proof.
  intros Hreach Hfault. rewrite get_orders_run. cbv zeta. rewrite Hfault.
  destruct (query_eq_desc_spec (orders w) (param req)) as (Hnodup & Hin & Hsorted).
  eexists. split; [reflexivity|]. split; [exact Hnodup|].
  assert (Hin' : forall id d,
            In (id, d) (Firestore.query_eq_desc "userId" (param req) "createdAt" (orders w))
            <-> orders w !! id = Some d /\ get d "userId" = VStr (param req)).
  { intros id d. rewrite Hin. split; [tauto|].
    intros [Hd Hu]. repeat split; try assumption.
    apply (reachable_have_createdAt w Hreach id d Hd). }
  split; [exact Hin'|]. split; [exact Hsorted|].
  intros Hnone.
  destruct (Firestore.query_eq_desc _ _ _ _) as [|[id d] docs]; [reflexivity|].
  destruct (proj1 (Hin' id d) (or_introl eq_refl)) as [Hd Hu].
  exfalso. exact (Hnone id d Hd Hu).
Qed.

Lemma get_orders_lists_user_orders_witness :
  exists docs,
    snd (get_orders (Run.read "u1") (Run.env 0) Run.created)
    = Ok (res_json
            [("success", VBool true);
             ("orders", VArr (map (fun doc => with_id (fst doc) (snd doc)) docs))])
    /\ List.NoDup docs
    /\ (forall id d,
          In (id, d) docs
          <-> orders Run.created !! id = Some d /\ get d "userId" = VStr "u1")
    /\ descending docs
    /\ ((forall id d, orders Run.created !! id = Some d -> get d "userId" <> VStr "u1") ->
        docs = []).
Proof.
  apply (get_orders_lists_user_orders (Run.read "u1") (Run.env 0) Run.created
           reachable_created eq_refl).
Defined.

Lemma reachable_same_createdAt : reachable Run.same_createdAt.
Proof. do 3 apply reach_step. apply reachable_created. Qed.

(** C8 as stated fails on ties: update-order-status can give two orders of
    a user the same [createdAt], and the list then has them one after the
    other, in an order that is not strictly descending. *)
Lemma get_orders_ties :
  reachable Run.same_createdAt
  /\ exists a b,
       Firestore.query_eq_desc "userId" "u1" "createdAt" (orders Run.same_createdAt)
       = [a; b]
       /\ snd (get_orders (Run.read "u1") (Run.env 0) Run.same_createdAt)
          = Ok (res_json
                  [("success", VBool true);
                   ("orders", VArr [with_id (fst a) (snd a); with_id (fst b) (snd b)])])
       /\ get (snd a) "createdAt" = VStr "x"
       /\ get (snd b) "createdAt" = VStr "x"
       /\ Firestore.compare (get (snd a) "createdAt") (get (snd b) "createdAt") = Eq
       /\ ~ strictly_descending [a; b].
Proof.
  split; [exact reachable_same_createdAt|].
  eexists (_, _), (_, _). split; [vm_compute; reflexivity|].
  split; [vm_compute; reflexivity|]. split; [reflexivity|]. split; [reflexivity|].
  split; [reflexivity|].
  intros Hs. inversion Hs as [|? ? _ Hhd]; subst.
  inversion Hhd as [|? ? Hgt]; subst. vm_compute in Hgt. discriminate.
Qed.

(** ** The lifecycle of an order *)












(** ** The ids the service creates *)

Lemma has_char_iff (c : ascii) (s : string) :
  Firestore.has_char c s = true <-> In c (list_ascii_of_string s).
Proof.
  unfold Firestore.has_char. rewrite existsb_exists. split.
  - intros (x & Hx & Heq). apply Ascii.eqb_eq in Heq. congruence.
  - intros Hc. exists c. split; [exact Hc|apply Ascii.eqb_refl].
Qed.

Lemma id_chars_alphabet (n : nat) (seed : N) (c : ascii) :
  In c (list_ascii_of_string (Firestore.id_chars n seed)) ->
  In c Firestore.id_alphabet.
Proof.
  revert seed. induction n as [|n IH]; intros seed;
    cbn [Firestore.id_chars list_ascii_of_string In]; [tauto|].
  intros [<-|Hc]; [|exact (IH _ Hc)].
  destruct (nth_in_or_default (N.to_nat (seed mod 62)) Firestore.id_alphabet "A"%char)
    as [Hin| ->]; [exact Hin|left; reflexivity].
Qed.

Lemma id_chars_length (n : nat) (seed : N) :
  String.length (Firestore.id_chars n seed) = n.
Proof.
  revert seed. induction n as [|n IH]; intros seed; simpl; [reflexivity|].
  rewrite IH. reflexivity.
Qed.

Ltac not_in_alphabet H :=
  vm_compute in H;
  repeat (destruct H as [H|H]; [discriminate H|]); destruct H.

(** An id the client draws is one the store accepts. *)
Lemma autoId_valid (seed : N) : Firestore.valid_doc_id (Firestore.autoId seed) = true.
Proof.
  unfold Firestore.valid_doc_id.
  assert (Hslash : Firestore.has_char "/" (Firestore.autoId seed) = false).
  { destruct (Firestore.has_char "/" (Firestore.autoId seed)) eqn:E; [|reflexivity].
    apply has_char_iff, id_chars_alphabet in E. not_in_alphabet E. }
  assert (Hlen : String.length (Firestore.autoId seed) = 20%nat)
    by apply id_chars_length.
  assert (Hne : forall s, String.length s <> 20%nat ->
                          String.eqb (Firestore.autoId seed) s = false).
  { intros s Hs. apply String.eqb_neq. intros Heq. rewrite Heq in Hlen. contradiction. }
  assert (Hres : Firestore.reserved_id (Firestore.autoId seed) = false).
  { unfold Firestore.reserved_id. rewrite Hlen.
    change (Firestore.autoId seed)
      with (String (nth (N.to_nat (seed mod 62)) Firestore.id_alphabet "A"%char)
              (Firestore.id_chars 19 (seed / 62))) at 1.
    cbn [String.prefix Nat.leb andb].
    destruct (ascii_dec "_" _) as [Heq|]; [|reflexivity].
    assert (Hin : In "_"%char Firestore.id_alphabet).
    { rewrite Heq. apply (id_chars_alphabet 1 seed). left. reflexivity. }
    not_in_alphabet Hin. }
  rewrite Hslash, Hres, Hlen, !Hne by (simpl; lia). reflexivity.
Qed.

(** Every order of a world the service can bring about is stored under an
    id the store accepts. *)
Lemma reachable_ids_valid (w : World) :
  reachable w ->
  forall id d, orders w !! id = Some d -> Firestore.valid_doc_id id = true.
Proof.
  induction 1 as [|w c req env Hreach IH]; intros id d.
  - simpl. rewrite lookup_empty. discriminate.
  - unfold world_after. destruct c; simpl.
    + destruct (create_order_orders req env w) as [[-> _]|(ro & Hfresh & -> & _)];
        [apply IH|].
      rewrite lookup_insert. case_decide as Hid; [|apply IH].
      intros _. rewrite <- Hid. apply autoId_valid.
    + destruct (verify_payment_orders req env w)
        as [[-> _]|(id' & doc & data & _ & Hdoc & _ & -> & _)]; [apply IH|].
      rewrite lookup_insert. case_decide as Hid; [|apply IH].
      intros _. rewrite <- Hid. apply (IH id' doc Hdoc).
    + destruct (update_order_status_orders req env w)
        as [[-> _]|(id' & doc & data & Hdoc & -> & _)]; [apply IH|].
      rewrite lookup_insert. case_decide as Hid; [|apply IH].
      intros _. rewrite <- Hid. apply (IH id' doc Hdoc).
    + destruct (get_order_orders req env w) as [-> _]. apply IH.
    + destruct (get_orders_orders req env w) as [-> _]. apply IH.
Qed.

(** * Further properties of the handlers *)

(** The decisions a handler takes, one after the other. *)
Ltac outcome_cases :=
  cbv zeta; unfold update_outcome, caught;
  repeat match goal with
    | |- context [if forallb ?f required_fields then _ else _] =>
        destruct (forallb f required_fields) eqn:?
    | |- context [match razorpay_api ?e ?o with _ => _ end] =>
        destruct (razorpay_api e o) eqn:?
    | |- context [if Firestore.valid_add ?d then _ else _] =>
        destruct (Firestore.valid_add d) eqn:?
    | |- context [if verify_signature ?a ?b ?c ?d ?e then _ else _] =>
        destruct (verify_signature a b c d e) eqn:?
    | |- context [match get (body ?r) "firebaseOrderId" with _ => _ end] =>
        destruct (get (body r) "firebaseOrderId") eqn:?
    | |- context [if Firestore.valid_doc_id ?i then _ else _] =>
        destruct (Firestore.valid_doc_id i) eqn:?
    | |- context [if Firestore.valid_update ?d then _ else _] =>
        destruct (Firestore.valid_update d) eqn:?
    | |- context [match db_fault ?e with _ => _ end] =>
        destruct (db_fault e) eqn:?
    | |- context [match orders ?w !! ?i with _ => _ end] =>
        destruct (orders w !! i) eqn:?
    end.

Ltac run_handler c :=
  destruct c; cbn [handle world_after];
  [rewrite create_order_run|rewrite verify_payment_run
  |rewrite update_order_status_run|rewrite get_order_run|rewrite get_orders_run];
  outcome_cases.

(** ** The answers *)


(** A request makes at most one call to the gateway and at most one to the
    store: nothing is retried, and only create-order calls the gateway. *)
Theorem handlers_call_once (c : Call) (req : Request) (env : Env) (w : World) :
  exists events,
    trace (world_after c req env w) = trace w ++ events
    /\ (length (List.filter is_gateway_call events) <= 1)%nat
    /\ (length (List.filter is_store_call events) <= 1)%nat
    /\ (c <> CreateOrder -> List.filter is_gateway_call events = []).
Proof.
  unfold world_after.
  run_handler c; world_simpl; rewrite <- ?app_assoc;
    try (exists []; rewrite app_nil_r; cbn; split; [reflexivity|];
         split; [lia|]; split; [lia|reflexivity]);
    (eexists; split; [reflexivity|]; cbn; split; [lia|]; split; [lia|];
     first [reflexivity|intros Hc; contradiction Hc; reflexivity]).
Qed.

(** Reading changes nothing but the trace: get-order and get-orders leave
    the collection, the clock and the gateway as they were, whatever the
    request and whether or not the store can be reached. *)
Theorem reads_change_nothing (req : Request) (env : Env) (w : World) :
  let w1 := world_after GetOrder req env w in
  let w2 := world_after GetOrders req env w in
  (orders w1 = orders w /\ clock w1 = clock w /\ gateway_orders w1 = gateway_orders w)
  /\ (orders w2 = orders w /\ clock w2 = clock w
      /\ gateway_orders w2 = gateway_orders w).
Proof.
  cbv zeta. unfold world_after. cbn [handle].
  rewrite get_order_run, get_orders_run. outcome_cases; world_simpl; auto.
Qed.
(** ** create-order, further *)

(** What a run of create-order that answers 200 did. *)
Lemma create_order_succeeds (req : Request) (env : Env) (w w' : World) (r : Response) :
  create_order req env w = (w', Ok r) ->
  status r = 200%N ->
  exists razorpayOrder,
    let options :=
      razorpayOrderOptions (Number_toString env) (get (body req) "userId")
        (get (body req) "userEmail") (get (body req) "amount") in
    let data :=
      firebaseOrderData (get (body req) "userId") (get (body req) "userEmail")
        (get (body req) "items") (get (body req) "totalAmount")
        (get (body req) "userDetails") razorpayOrder in
    let id := Firestore.autoId (id_seed env) in
    razorpay_api env options = inr razorpayOrder
    /\ orders w !! id = None
    /\ r = order_created razorpayOrder id
    /\ w' = store_writes id (Firestore.new_document (clock w) data)
              (log [StoreAdd data] (gateway_creates razorpayOrder
                                      (log [GatewayOrderCreate options] w))).
Proof.
  rewrite create_order_run. outcome_cases;
    intros H Hstatus; injection H as <- <-; try discriminate Hstatus.
  eexists. repeat split; eassumption.
Qed.



(** create-order never changes an order that is stored: whatever the
    request, every document of the collection is there afterwards as it
    was. *)
Theorem create_order_keeps_existing (req : Request) (env : Env) (w : World)
    (id : string) (d : Obj) :
  orders w !! id = Some d ->
  orders (world_after CreateOrder req env w) !! id = Some d.
Proof.
  intros Hd. unfold world_after. cbn [handle].
  destruct (create_order_orders req env w) as [[-> _]|(ro & Hfresh & -> & _)];
    [exact Hd|].
  rewrite lookup_insert_ne; [exact Hd|]. intros Heq. rewrite Heq in Hfresh. congruence.
Qed.

Lemma create_order_keeps_existing_witness :
  orders Run.two_orders !! Run.id0
  = Some (Firestore.new_document 0
            (firebaseOrderData (VStr "u1") (VStr "a@b.com") Run.one_item (VNum 100)
               (VObj [("name", VStr "A")]) [("id", VStr "order_abc")])).
Proof.
  apply (create_order_keeps_existing (Run.order_of "u1" Run.one_item) (Run.env 1)
           Run.created Run.id0).
  vm_compute. reflexivity.
Defined.

(** ** The two handlers that update *)

(** verify-payment and update-order-status create no document, change no
    document but the one the request names, and leave the gateway alone. *)
Theorem updates_touch_one_document (c : Call) (req : Request) (env : Env) (w : World) :
  c = VerifyPayment \/ c = UpdateOrderStatus ->
  let w' := world_after c req env w in
  gateway_orders w' = gateway_orders w
  /\ (forall id, is_Some (orders w' !! id) <-> is_Some (orders w !! id))
  /\ (forall id, get (body req) "firebaseOrderId" <> VStr id ->
                 orders w' !! id = orders w !! id).
Proof.
  intros Hc. cbv zeta. unfold world_after.
  assert (Hupdate : forall label data ok,
            let w' := fst (update_outcome label (get (body req) "firebaseOrderId")
                             data ok env w) in
            gateway_orders w' = gateway_orders w
            /\ (forall id, is_Some (orders w' !! id) <-> is_Some (orders w !! id))
            /\ (forall id, get (body req) "firebaseOrderId" <> VStr id ->
                           orders w' !! id = orders w !! id)).
  { intros label data ok.
    destruct (update_outcome_orders label (get (body req) "firebaseOrderId") data ok
                env w) as [Hgw [[Ho _]|(ref & doc & Hid & Hdoc & _ & Ho & _)]];
      cbv zeta; rewrite Ho; (split; [exact Hgw|]); [tauto|].
    split.
    - intros id. rewrite lookup_insert. case_decide as Href; [|tauto].
      subst id. rewrite Hdoc. split; eauto.
    - intros id Hid'. apply lookup_insert_ne. congruence. }
  destruct Hc as [-> | ->]; cbn [handle].
  - rewrite verify_payment_run. cbv zeta.
    destruct (verify_signature _ _ _ _ _); apply Hupdate.
  - rewrite update_order_status_run. apply Hupdate.
Qed.

Lemma updates_touch_one_document_witness :
  gateway_orders Run.overridden = gateway_orders Run.created
  /\ (forall id, is_Some (orders Run.overridden !! id)
                 <-> is_Some (orders Run.created !! id))
  /\ (forall id, VStr Run.id0 <> VStr id ->
                 orders Run.overridden !! id = orders Run.created !! id).
Proof.
  apply (updates_touch_one_document UpdateOrderStatus
           (Run.status_update Run.id0 "paid"
              (VObj [("status", VStr "refunded"); ("updatedAt", VStr "never")]))
           (Run.env 0) Run.created (or_intror eq_refl)).
Defined.

(** An update of an order that is not in the collection answers 500 and
    changes nothing, a verify-payment with the right signature included. *)
Theorem update_of_missing_order (c : Call) (req : Request) (env : Env) (w : World)
    (id : string) :
  c = VerifyPayment \/ c = UpdateOrderStatus ->
  get (body req) "firebaseOrderId" = VStr id ->
  orders w !! id = None ->
  exists r,
    snd (handle c req env w) = Ok r
    /\ status r = 500%N
    /\ orders (world_after c req env w) = orders w.
Proof.
  intros Hc Hid Hmissing. unfold world_after.
  assert (Hupdate : forall label data ok,
            exists r,
              snd (update_outcome label (VStr id) data ok env w) = Ok r
              /\ status r = 500%N
              /\ orders (fst (update_outcome label (VStr id) data ok env w)) = orders w).
  { intros label data ok. unfold update_outcome, caught. rewrite Hmissing.
    destruct (Firestore.valid_doc_id id), (Firestore.valid_update data),
      (db_fault env); eexists; repeat split. }
  destruct Hc as [-> | ->]; cbn [handle].
  - rewrite verify_payment_run. cbv zeta. rewrite Hid.
    destruct (verify_signature _ _ _ _ _); apply Hupdate.
  - rewrite update_order_status_run, Hid. apply Hupdate.
Qed.

Lemma update_of_missing_order_witness :
  exists r,
    snd (handle UpdateOrderStatus (Run.status_update Run.id1 "paid" VUndefined)
           (Run.env 0) Run.created) = Ok r
    /\ status r = 500%N
    /\ orders (world_after UpdateOrderStatus
                 (Run.status_update Run.id1 "paid" VUndefined) (Run.env 0) Run.created)
       = orders Run.created.
Proof.
  apply (update_of_missing_order UpdateOrderStatus
           (Run.status_update Run.id1 "paid" VUndefined) (Run.env 0) Run.created
           Run.id1 (or_intror eq_refl) eq_refl).
  vm_compute. reflexivity.
Defined.

(** While the store cannot be reached no request is answered 200 and the
    collection stays as it is. *)
Theorem store_outage (c : Call) (req : Request) (env : Env) (w : World)
    (message : string) :
  db_fault env = Some message ->
  exists r,
    snd (handle c req env w) = Ok r
    /\ status r <> 200%N
    /\ orders (world_after c req env w) = orders w.
Proof.
  intros Hfault. unfold world_after.
  run_handler c; try congruence; eexists; repeat split; discriminate.
Qed.

Lemma store_outage_witness :
  exists r,
    snd (handle GetOrders (Run.read "u1") (Run.unreachable_store 0) Run.created) = Ok r
    /\ status r <> 200%N
    /\ orders (world_after GetOrders (Run.read "u1") (Run.unreachable_store 0)
                 Run.created) = orders Run.created.
Proof.
  apply (store_outage GetOrders (Run.read "u1") (Run.unreachable_store 0) Run.created
           "14 UNAVAILABLE" eq_refl).
Defined.
(** ** update-order-status, further *)

Lemma obj_get_In_unique (k : string) (v : Value) (l : Obj) :
  List.NoDup (map fst l) -> In (k, v) l -> obj_get k l = Some v.
Proof.
  induction l as [|[k0 v0] l IH]; simpl; [tauto|].
  intros Hnd. apply NoDup_cons_iff in Hnd as [Hnotin Hnd].
  intros [Heq|Hin].
  - injection Heq as -> ->. rewrite String.eqb_refl. reflexivity.
  - destruct (String.eqb_spec k k0) as [->|_]; [|apply IH; assumption].
    exfalso. apply Hnotin. apply in_map_iff. exists (k0, v). auto.
Qed.

Lemma In_entries_obj_get (k : string) (v : Value) (o : Obj) :
  In (k, v) (obj_entries o) -> obj_get k o = Some v.
Proof.
  intros Hin. rewrite <- obj_get_entries.
  apply obj_get_In_unique; [apply entries_unique|exact Hin].
Qed.

(** The store accepts an update only when it accepts each of its values. *)
Lemma valid_update_values (data : Obj) (k : string) (v : Value) :
  Firestore.valid_update data = true ->
  obj_get k data = Some v ->
  Firestore.valid_field_value v = true.
Proof.
  unfold Firestore.valid_update. intros Hvalid Hget.
  apply obj_get_In_entries in Hget.
  destruct (obj_entries data) as [|e es] eqn:Hes; [discriminate|].
  apply andb_true_iff in Hvalid as [Hall _].
  rewrite forallb_forall in Hall. apply Hall, andb_true_iff in Hget as [_ Hv].
  exact Hv.
Qed.

(** What a run of update-order-status that answers 200 did. *)
Lemma update_order_status_succeeds (req : Request) (env : Env) (w : World)
    (r : Response) :
  snd (update_order_status req env w) = Ok r ->
  status r = 200%N ->
  let data := updateData (get (body req) "status") (get (body req) "paymentDetails") in
  exists id order,
    get (body req) "firebaseOrderId" = VStr id
    /\ orders w !! id = Some order
    /\ Firestore.valid_update data = true
    /\ fst (update_order_status req env w)
       = store_writes id (Firestore.apply_update (clock w) data order)
           (log [StoreUpdate id data] w).
Proof.
  rewrite update_order_status_run. outcome_cases;
    intros H Hstatus; injection H as <-; try discriminate Hstatus.
  eexists _, _. repeat split; eassumption.
Qed.

(** A request without [status], and without one in its payment details, is
    answered 500 and writes nothing: the update would carry [undefined]. *)
Theorem update_order_status_without_status (req : Request) (env : Env) (w : World) :
  get (body req) "status" = VUndefined ->
  extra_field (get (body req) "paymentDetails") "status" = None ->
  exists r,
    snd (update_order_status req env w) = Ok r
    /\ status r = 500%N
    /\ orders (fst (update_order_status req env w)) = orders w.
Proof.
  intros Hstatus Hextra. rewrite update_order_status_run.
  assert (Hinvalid : Firestore.valid_update
                       (updateData (get (body req) "status")
                          (get (body req) "paymentDetails")) = false).
  { destruct (Firestore.valid_update _) eqn:Hvalid; [|reflexivity].
    assert (Hv : Firestore.valid_field_value VUndefined = true); [|discriminate Hv].
    apply (valid_update_values _ "status" _ Hvalid).
    rewrite obj_get_updateData, Hextra, Hstatus. reflexivity. }
  unfold update_outcome, caught. rewrite Hinvalid.
  destruct (get (body req) "firebaseOrderId") as [| | | |id| | | |];
    try solve [eexists; repeat split].
  destruct (Firestore.valid_doc_id id); eexists; repeat split.
Qed.

Lemma update_order_status_without_status_witness :
  exists r,
    snd (update_order_status (mkRequest [("firebaseOrderId", VStr Run.id0)] "")
           (Run.env 0) Run.created) = Ok r
    /\ status r = 500%N
    /\ orders (fst (update_order_status (mkRequest [("firebaseOrderId", VStr Run.id0)] "")
                      (Run.env 0) Run.created)) = orders Run.created.
Proof.
  apply (update_order_status_without_status
           (mkRequest [("firebaseOrderId", VStr Run.id0)] "") (Run.env 0) Run.created);
    reflexivity.
Defined.

(** A successful update-order-status leaves alone every field that no key
    of the update data names or leads into; without payment details these
    are all fields but [status] and [updatedAt]. *)
Theorem update_order_status_keeps_other_fields (req : Request) (env : Env) (w : World)
    (r : Response) :
  snd (update_order_status req env w) = Ok r ->
  status r = 200%N ->
  let paymentDetails := get (body req) "paymentDetails" in
  let data := updateData (get (body req) "status") paymentDetails in
  exists id order order',
    get (body req) "firebaseOrderId" = VStr id
    /\ orders w !! id = Some order
    /\ orders (fst (update_order_status req env w)) !! id = Some order'
    /\ (forall k,
          (forall k' v, obj_get k' data = Some v ->
                        hd_error (Firestore.field_path k') <> Some k) ->
          obj_get k order' = obj_get k order)
    /\ (truthy paymentDetails = false ->
        forall k, k <> "status" -> k <> "updatedAt" ->
                  obj_get k order' = obj_get k order).
Proof.
  intros Hok Hstatus paymentDetails data.
  destruct (update_order_status_succeeds req env w r Hok Hstatus)
    as (id & order & Hid & Horder & Hvalid & ->).
  fold paymentDetails data. world_simpl.
  exists id, order, (Firestore.apply_update (clock w) data order).
  split; [exact Hid|]. split; [exact Horder|]. split; [apply lookup_insert_eq|].
  assert (Hframe : forall k,
            (forall k' v, obj_get k' data = Some v ->
                          hd_error (Firestore.field_path k') <> Some k) ->
            obj_get k (Firestore.apply_update (clock w) data order) = obj_get k order).
  { intros k Hother. unfold Firestore.apply_update. apply fold_write_other.
    intros [k' v] Hin. apply (Hother k' v), In_entries_obj_get, Hin. }
  split; [exact Hframe|].
  intros Hfalsy k Hs Hu. apply Hframe. intros k' v.
  unfold data, updateData. rewrite Hfalsy. simpl.
  destruct (String.eqb_spec k' "status") as [->|_];
    [intros _ Heq; cbn in Heq; congruence|].
  destruct (String.eqb_spec k' "updatedAt") as [->|_];
    [intros _ Heq; cbn in Heq; congruence|].
  discriminate.
Qed.

Lemma update_order_status_keeps_other_fields_witness :
  exists id order order',
    VStr Run.id0 = VStr id
    /\ orders Run.created !! id = Some order
    /\ orders (fst (update_order_status (Run.status_update Run.id0 "shipped" VUndefined)
                      (Run.env 0) Run.created)) !! id = Some order'
    /\ (forall k,
          (forall k' v, obj_get k' (updateData (VStr "shipped") VUndefined) = Some v ->
                        hd_error (Firestore.field_path k') <> Some k) ->
          obj_get k order' = obj_get k order)
    /\ (truthy VUndefined = false ->
        forall k, k <> "status" -> k <> "updatedAt" ->
                  obj_get k order' = obj_get k order).
Proof.
  apply (update_order_status_keeps_other_fields
           (Run.status_update Run.id0 "shipped" VUndefined) (Run.env 0) Run.created
           status_updated); reflexivity.
Defined.

(** ** What stays in a stored order *)

(** No handler takes a field away: in every world the service can bring
    about, every stored order has the twelve fields create-order wrote. *)
Theorem stored_orders_keep_their_fields (w : World) (id : string) (d : Obj)
    (field : string) :
  reachable w ->
  orders w !! id = Some d ->
  In field creation_fields ->
  Firestore.has_field field d = true.
Proof.
  intros Hreach. revert id d.
  induction Hreach as [|w c req env Hreach IH]; intros id d.
  - simpl. rewrite lookup_empty. discriminate.
  - intros Hd Hfield. revert Hd. unfold world_after. destruct c; cbn [handle].
    + destruct (create_order_orders req env w) as [[-> _]|(ro & Hfresh & -> & _)];
        [intros Hd; exact (IH id d Hd Hfield)|].
      rewrite lookup_insert. case_decide; [|intros Hd; exact (IH id d Hd Hfield)].
      intros Heq. injection Heq as <-. apply has_field_iff.
      rewrite obj_get_new_document. unfold creation_fields in Hfield.
      simpl in Hfield.
      repeat (destruct Hfield as [<-|Hfield]; [discriminate|]). destruct Hfield.
    + destruct (verify_payment_orders req env w)
        as [[-> _]|(id' & doc & data & _ & Hdoc & _ & -> & _)];
        [intros Hd; exact (IH id d Hd Hfield)|].
      rewrite lookup_insert. case_decide; [|intros Hd; exact (IH id d Hd Hfield)].
      intros Heq. injection Heq as <-. apply has_field_iff, apply_update_keeps.
      apply has_field_iff, (IH id' doc Hdoc Hfield).
    + destruct (update_order_status_orders req env w)
        as [[-> _]|(id' & doc & data & Hdoc & -> & _)];
        [intros Hd; exact (IH id d Hd Hfield)|].
      rewrite lookup_insert. case_decide; [|intros Hd; exact (IH id d Hd Hfield)].
      intros Heq. injection Heq as <-. apply has_field_iff, apply_update_keeps.
      apply has_field_iff, (IH id' doc Hdoc Hfield).
    + destruct (get_order_orders req env w) as [-> _].
      intros Hd; exact (IH id d Hd Hfield).
    + destruct (get_orders_orders req env w) as [-> _].
      intros Hd; exact (IH id d Hd Hfield).
Qed.

Lemma reachable_overridden : reachable Run.overridden.
Proof. apply reach_step, reachable_created. Qed.

Lemma stored_orders_keep_their_fields_witness :
  Firestore.has_field "razorpaySignature"
    (Firestore.apply_update 1
       (updateData (VStr "paid")
          (VObj [("status", VStr "refunded"); ("updatedAt", VStr "never")]))
       (Firestore.new_document 0
          (firebaseOrderData (VStr "u1") (VStr "a@b.com") Run.one_item (VNum 100)
             (VObj [("name", VStr "A")]) [("id", VStr "order_abc")])))
  = true.
Proof.
  apply (stored_orders_keep_their_fields Run.overridden Run.id0 _ "razorpaySignature"
           reachable_overridden);
    [vm_compute; reflexivity|simpl; auto 12].
Defined.
(** ** Creating an order, then reading it *)

(** The order create-order has stored can be read back: get-order on the id
    of the response answers 200 with that id, the status [pending], the
    inputs of the request as they came, and one server time for [createdAt]
    and [updatedAt]. *)
Theorem create_then_get_order (req req' : Request) (env env' : Env) (w w' : World)
    (r : Response) :
  create_order req env w = (w', Ok r) ->
  status r = 200%N ->
  get (json r) "firebaseOrderId" = VStr (param req') ->
  db_fault env' = None ->
  exists order,
    snd (get_order req' env' w')
    = Ok (res_json [("success", VBool true); ("order", VObj order)])
    /\ get order "id" = VStr (param req')
    /\ get order "status" = VStr "pending"
    /\ (forall field, In field stored_inputs ->
                      json_value (get (body req) field) = true ->
                      get order field = get (body req) field)
    /\ get order "createdAt" = VTimestamp (clock w)
    /\ get order "updatedAt" = VTimestamp (clock w).
Proof.
  intros Hcreate Hstatus Hparam Hfault.
  destruct (create_order_succeeds req env w w' r Hcreate Hstatus)
    as (ro & _ & _ & -> & ->).
  pose proof (autoId_valid (id_seed env)) as Hvalid.
  remember (Firestore.autoId (id_seed env)) as id eqn:Hdrawn.
  change (VStr id = VStr (param req')) in Hparam. injection Hparam as Hparam.
  rewrite get_order_run. cbv zeta. rewrite <- Hparam, Hvalid, Hfault.
  world_simpl. rewrite lookup_insert_eq. eexists. split; [reflexivity|].
  assert (Hfield : forall k,
            get (Object_assign [("id", VStr id)]
                   (VObj (Firestore.new_document (clock w)
                            (firebaseOrderData (get (body req) "userId")
                               (get (body req) "userEmail") (get (body req) "items")
                               (get (body req) "totalAmount")
                               (get (body req) "userDetails") ro)))) k
            = match option_map (Firestore.resolve (clock w))
                      (obj_get k (firebaseOrderData (get (body req) "userId")
                                    (get (body req) "userEmail") (get (body req) "items")
                                    (get (body req) "totalAmount")
                                    (get (body req) "userDetails") ro)) with
              | Some v => v
              | None => get [("id", VStr id)] k
              end).
  { intros k. unfold get. rewrite obj_get_assign, obj_get_new_document.
    destruct (option_map _ _); reflexivity. }
  rewrite !Hfield. split; [reflexivity|]. split; [reflexivity|].
  split; [|split; reflexivity].
  intros field Hin Hjson. rewrite Hfield.
  unfold stored_inputs in Hin. simpl in Hin.
  repeat (destruct Hin as [<-|Hin];
          [cbn; rewrite (json_value_resolve _ _ Hjson); reflexivity|]).
  destruct Hin.
Qed.

Lemma create_then_get_order_witness :
  exists order,
    snd (get_order (Run.read Run.id0) (Run.env 0) Run.created)
    = Ok (res_json [("success", VBool true); ("order", VObj order)])
    /\ get order "id" = VStr Run.id0
    /\ get order "status" = VStr "pending"
    /\ (forall field, In field stored_inputs ->
                      json_value (get (body (Run.order_of "u1" Run.one_item)) field)
                      = true ->
                      get order field = get (body (Run.order_of "u1" Run.one_item)) field)
    /\ get order "createdAt" = VTimestamp 0
    /\ get order "updatedAt" = VTimestamp 0.
Proof.
  apply (create_then_get_order (Run.order_of "u1" Run.one_item) (Run.read Run.id0)
           (Run.env 0) (Run.env 0) initial_world Run.created
           (order_created [("id", VStr "order_abc"); ("amount", VNum 10000);
                           ("currency", VStr "INR")] Run.id0));
    [vm_compute; reflexivity|reflexivity|reflexivity|reflexivity].
Defined.

(** The order create-order has stored for a user is in the list get-orders
    answers for that user. *)
Theorem create_then_get_orders (req req' : Request) (env env' : Env) (w w' : World)
    (r : Response) :
  create_order req env w = (w', Ok r) ->
  status r = 200%N ->
  get (body req) "userId" = VStr (param req') ->
  db_fault env' = None ->
  exists docs doc,
    snd (get_orders req' env' w')
    = Ok (res_json
            [("success", VBool true);
             ("orders", VArr (map (fun doc => with_id (fst doc) (snd doc)) docs))])
    /\ In (Firestore.autoId (id_seed env), doc) docs
    /\ get (json r) "firebaseOrderId" = VStr (Firestore.autoId (id_seed env))
    /\ get doc "status" = VStr "pending".
Proof.
  intros Hcreate Hstatus Huser Hfault.
  destruct (create_order_succeeds req env w w' r Hcreate Hstatus)
    as (ro & _ & _ & -> & ->).
  remember (Firestore.autoId (id_seed env)) as id eqn:Hdrawn.
  rewrite get_orders_run. cbv zeta. rewrite Hfault. world_simpl.
  eexists _, _. split; [reflexivity|]. split; [|split; [reflexivity|]].
  - apply query_eq_desc_spec. split; [apply lookup_insert_eq|].
    rewrite Huser. unfold get, Firestore.has_field.
    rewrite !obj_get_new_document. cbn. split; reflexivity.
  - unfold get. rewrite obj_get_new_document. reflexivity.
Qed.

Lemma create_then_get_orders_witness :
  exists docs doc,
    snd (get_orders (Run.read "u1") (Run.env 0) Run.created)
    = Ok (res_json
            [("success", VBool true);
             ("orders", VArr (map (fun doc => with_id (fst doc) (snd doc)) docs))])
    /\ In (Firestore.autoId 0, doc) docs
    /\ get (json (order_created [("id", VStr "order_abc"); ("amount", VNum 10000);
                                 ("currency", VStr "INR")] Run.id0)) "firebaseOrderId"
       = VStr (Firestore.autoId 0)
    /\ get doc "status" = VStr "pending".
Proof.
  apply (create_then_get_orders (Run.order_of "u1" Run.one_item) (Run.read "u1")
           (Run.env 0) (Run.env 0) initial_world Run.created
           (order_created [("id", VStr "order_abc"); ("amount", VNum 10000);
                           ("currency", VStr "INR")] Run.id0));
    [vm_compute; reflexivity|reflexivity|reflexivity|reflexivity].
Defined.

(** ** The signature, further *)



(** ** The shape of the digest *)
Section DigestShape.

Local Open Scope Z_scope.

Lemma be_bytes_length (n : nat) (x : Z) : length (Crypto.be_bytes n x) = n.
Proof. unfold Crypto.be_bytes. rewrite length_map, length_rev, length_seq. reflexivity. Qed.

Lemma be_bytes_range (n : nat) (x b : Z) :
  In b (Crypto.be_bytes n x) -> 0 <= b < 256.
Proof.
  unfold Crypto.be_bytes. intros Hin. apply in_map_iff in Hin as (i & <- & _).
  apply Z.mod_pos_bound. lia.
Qed.

Lemma compress_length (h block : list Z) :
  length h = 8%nat -> length (Crypto.compress h block) = 8%nat.
Proof.
  intros Hh. unfold Crypto.compress. rewrite length_zip_with, Hh. reflexivity.
Qed.

Lemma sha256_bytes (msg : list Z) :
  length (Crypto.sha256 msg) = 32%nat
  /\ forall b, In b (Crypto.sha256 msg) -> 0 <= b < 256.
Proof.
  unfold Crypto.sha256.
  set (blocks := Crypto.chunks _ _ _).
  assert (Hstate : forall h, length h = 8%nat ->
                             length (fold_left Crypto.compress blocks h) = 8%nat).
  { induction blocks as [|b bs IH]; intros h Hh; simpl; [exact Hh|].
    apply IH, compress_length, Hh. }
  specialize (Hstate Crypto.H256 eq_refl).
  set (state := fold_left Crypto.compress blocks Crypto.H256) in *.
  split.
  - clearbody state. do 9 (destruct state as [|? state]; try discriminate Hstate).
    reflexivity.
  - intros b Hin. apply in_flat_map in Hin as (x & _ & Hin).
    exact (be_bytes_range 4 x b Hin).
Qed.

Lemma hex_digit_lowercase (d : Z) : 0 <= d < 16 -> In (Crypto.hex_digit d) hex_digits.
Proof.
  intros Hd.
  assert (Hcases : d = 0 \/ d = 1 \/ d = 2 \/ d = 3 \/ d = 4 \/ d = 5 \/ d = 6 \/ d = 7
                   \/ d = 8 \/ d = 9 \/ d = 10 \/ d = 11 \/ d = 12 \/ d = 13 \/ d = 14
                   \/ d = 15) by lia.
  repeat (destruct Hcases as [->|Hcases]; [vm_compute; tauto|]).
  subst d. vm_compute. tauto.
Qed.

Lemma string_of_list_ascii_length (l : list ascii) :
  String.length (string_of_list_ascii l) = length l.
Proof. induction l as [|c l IH]; simpl; [reflexivity|rewrite IH; reflexivity]. Qed.

Lemma hex_shape (bs : list Z) :
  (forall b, In b bs -> 0 <= b < 256) ->
  String.length (Crypto.hex bs) = (2 * length bs)%nat
  /\ forall c, In c (list_ascii_of_string (Crypto.hex bs)) -> In c hex_digits.
Proof.
  intros Hbytes. unfold Crypto.hex.
  rewrite string_of_list_ascii_length, list_ascii_of_string_of_list_ascii. split.
  - clear Hbytes. induction bs as [|b bs IH]; simpl; [reflexivity|].
    rewrite IH. lia.
  - intros c Hin. apply in_flat_map in Hin as (b & Hb & Hin).
    specialize (Hbytes b Hb).
    destruct Hin as [<-|[<-|[]]]; apply hex_digit_lowercase.
    + split; [apply Z.div_pos; lia|apply Z.div_lt_upper_bound; lia].
    + apply Z.mod_pos_bound. lia.
Qed.

(** The digest the check compares with is 64 characters long, all of them
    lowercase hexadecimal digits; so a candidate the check accepts is such a
    string: one of another length, or with an uppercase digit, is rejected. *)
Theorem accepted_signature_shape (toString : float -> string)
    (order_id payment_id : Value) (secret : string) (candidate : Value) :
  verify_signature toString order_id payment_id secret candidate = true ->
  exists s,
    candidate = VStr s
    /\ String.length s = 64%nat
    /\ forall c, In c (list_ascii_of_string s) -> In c hex_digits.
Proof.
  intros Hauth. apply verify_signature_iff in Hauth. eexists. split; [exact Hauth|].
  unfold Crypto.hmac_sha256_hex, Crypto.hmac_sha256.
  match goal with |- context [Crypto.hex (Crypto.sha256 ?m)] =>
    destruct (sha256_bytes m) as [Hlen Hrange];
    destruct (hex_shape (Crypto.sha256 m) Hrange) as [Hhex Hdigits]
  end.
  split; [rewrite Hhex, Hlen; reflexivity|exact Hdigits].
Qed.

Lemma accepted_signature_shape_witness :
  exists s,
    VStr Run.forged = VStr s
    /\ String.length s = 64%nat
    /\ forall c, In c (list_ascii_of_string s) -> In c hex_digits.
Proof.
  apply (accepted_signature_shape (fun _ => "NaN") (VStr "order_abc") (VStr "pay_xyz")
           "your_razorpay_secret_here" (VStr Run.forged)).
  vm_compute. reflexivity.
Defined.

End DigestShape.
(** ** What create-order stores *)

(** The document create-order stores has the twelve fields of the handler
    and no other: what else the body carries, [amount] included, is not
    stored. *)
Theorem create_order_stores_twelve_fields (req : Request) (env : Env) (w w' : World)
    (r : Response) :
  create_order req env w = (w', Ok r) ->
  status r = 200%N ->
  exists record,
    orders w' !! Firestore.autoId (id_seed env) = Some record
    /\ map fst record = creation_fields.
Proof.
  intros Hcreate Hstatus.
  destruct (create_order_succeeds req env w w' r Hcreate Hstatus)
    as (ro & _ & _ & _ & ->).
  remember (Firestore.autoId (id_seed env)) as id eqn:Hdrawn.
  world_simpl. eexists. split; [apply lookup_insert_eq|]. reflexivity.
Qed.

Lemma create_order_stores_twelve_fields_witness :
  exists record,
    orders Run.created !! Firestore.autoId 0 = Some record
    /\ map fst record = creation_fields.
Proof.
  apply (create_order_stores_twelve_fields
           (mkRequest (body (Run.order_of "u1" Run.one_item) ++ [("role", VStr "admin")])
              "")
           (Run.env 0) initial_world Run.created
           (order_created [("id", VStr "order_abc"); ("amount", VNum 10000);
                           ("currency", VStr "INR")] Run.id0));
    [vm_compute; reflexivity|reflexivity].
Defined.

(** ** The gateway behind the collection *)

Lemma create_order_counts (req : Request) (env : Env) (w : World) :
  let w' := world_after CreateOrder req env w in
  (orders w' = orders w /\ exists new, gateway_orders w' = gateway_orders w ++ new)
  \/ (exists id doc ro,
        orders w !! id = None /\ orders w' = <[id := doc]> (orders w)
        /\ gateway_orders w' = gateway_orders w ++ [ro]).
Proof.
  cbv zeta. unfold world_after. cbn [handle]. rewrite create_order_run.
  outcome_cases; world_simpl;
    try (left; split; [reflexivity|]; first [exists []; rewrite app_nil_r; reflexivity
                                            |eexists; reflexivity]).
  right. eexists _, _, _. repeat split. assumption.
Qed.

Lemma updates_size (c : Call) (req : Request) (env : Env) (w : World) :
  c = VerifyPayment \/ c = UpdateOrderStatus ->
  size (orders (world_after c req env w)) = size (orders w)
  /\ gateway_orders (world_after c req env w) = gateway_orders w.
Proof.
  intros Hc. unfold world_after.
  assert (Hupdate : forall label id data ok,
            size (orders (fst (update_outcome label id data ok env w))) = size (orders w)
            /\ gateway_orders (fst (update_outcome label id data ok env w))
               = gateway_orders w).
  { intros label id data ok.
    destruct (update_outcome_orders label id data ok env w)
      as [Hgw [[Ho _]|(ref & doc & _ & Hdoc & _ & Ho & _)]];
      rewrite Ho; (split; [|exact Hgw]); [reflexivity|].
    apply map_size_insert_Some. rewrite Hdoc. eauto. }
  destruct Hc as [-> | ->]; cbn [handle].
  - rewrite verify_payment_run. cbv zeta.
    destruct (verify_signature _ _ _ _ _); apply Hupdate.
  - rewrite update_order_status_run. apply Hupdate.
Qed.

(** Every local order has a gateway order behind it: in every world the
    service can bring about there are at least as many orders at the
    gateway as documents in the collection; no handler removes an order
    from the gateway. *)
Theorem orders_backed_by_gateway (w : World) :
  reachable w -> (size (orders w) <= length (gateway_orders w))%nat.
Proof.
  induction 1 as [|w c req env Hreach IH]; [cbn; rewrite map_size_empty; lia|].
  destruct c.
  - destruct (create_order_counts req env w)
      as [[-> [new ->]]|(id & doc & ro & Hfresh & -> & ->)].
    + rewrite length_app. lia.
    + rewrite map_size_insert_None by exact Hfresh. rewrite length_app. simpl. lia.
  - destruct (updates_size VerifyPayment req env w (or_introl eq_refl)) as [-> ->].
    exact IH.
  - destruct (updates_size UpdateOrderStatus req env w (or_intror eq_refl)) as [-> ->].
    exact IH.
  - destruct (get_order_orders req env w) as [Ho _].
    unfold world_after. cbn [handle]. rewrite Ho.
    rewrite get_order_run. outcome_cases; world_simpl; exact IH.
  - destruct (get_orders_orders req env w) as [Ho _].
    unfold world_after. cbn [handle]. rewrite Ho.
    rewrite get_orders_run. outcome_cases; world_simpl; exact IH.
Qed.

Lemma orders_backed_by_gateway_witness :
  (size (orders Run.two_orders) <= length (gateway_orders Run.two_orders))%nat.
Proof.
  apply (orders_backed_by_gateway Run.two_orders).
  apply reach_step, reachable_created.
Defined.

(** ** The log *)

(** A handler logs an error exactly when it answers 500, and then once. *)
Theorem errors_are_logged (c : Call) (req : Request) (env : Env) (w : World) :
  exists r events,
    snd (handle c req env w) = Ok r
    /\ trace (world_after c req env w) = trace w ++ events
    /\ length (List.filter is_error_log events)
       = if N.eqb (status r) 500 then 1%nat else 0%nat.
Proof.
  unfold world_after.
  run_handler c; world_simpl; rewrite <- ?app_assoc;
    first [solve [exists missing_required_fields, []; rewrite app_nil_r; repeat split]
          |do 2 eexists; split; [reflexivity|]; split; reflexivity].
Qed.
